(** * distributed/node.py: node lifecycle and service orchestration

    A shallow embedding of [Node] and [ServerNode] from
    [src/distributed/node.py], and the properties of [get_logs],
    [start_services], [stop_services], [service_ports], [__await__] and
    [start_http_server] stated against it.

    Python values are a small tagged union, exceptions an inductive type,
    and every method that mutates the node or talks to a collaborator is a
    computation in a state-and-exception monad whose state survives a
    raise, as object mutations do in Python.  Builtins and collaborators
    that live outside [node.py] ([int], [str], the service classes, the
    connection pool, the HTTP server, [close] of the subclass) are the
    members of three classes, [Builtins], [Collaborators] and [Closing];
    the general theorems hold for every instance, and [Demo] gives one
    that runs. *)

From Stdlib Require Import ZArith String Ascii DecimalString Bool Lia List.
Import ListNotations.
Local Open Scope string_scope.
Local Open Scope list_scope.
Local Open Scope Z_scope.
#[local] Set Warnings "-register-all".

(** ** Python values *)

Inductive pyval : Type :=
| PNone
| PInt (z : Z)
| PStr (s : string)
| PTuple (l : list pyval)
| PList (l : list pyval).

(** Truth value of an object, as [if x:] and [x or y] test it. *)
Definition truthy (v : pyval) : bool :=
  match v with
  | PNone => false
  | PInt z => negb (z =? 0)
  | PStr s => negb (String.eqb s "")
  | PTuple l | PList l => match l with [] => false | _ => true end
  end.

(** [x or y]. *)
Definition py_or (x y : pyval) : pyval := if truthy x then x else y.

Definition is_str (v : pyval) : bool :=
  match v with PStr _ => true | _ => false end.

Definition is_seq (v : pyval) : bool :=
  match v with PTuple _ | PList _ => true | _ => false end.

Definition is_none (v : pyval) : bool :=
  match v with PNone => true | _ => false end.

(** ** Exceptions *)

(** The classes the code raises or catches by name, and the two kinds of
    class it can only meet through a collaborator. *)
Inductive exn_class : Type :=
| ValueError
| TypeError
| IndexError
| AsyncTimeoutError                 (* asyncio.TimeoutError, from asyncio.wait_for *)
| TimeoutError                      (* distributed.utils.TimeoutError *)
| OtherException (name : string)    (* derives from Exception, not from ValueError *)
| OtherBaseException (name : string). (* derives from BaseException only *)

(** An exception instance: its class and the arguments it was built with. *)
Record exn : Type := Exn {
  exn_class_of : exn_class;
  exn_args : list pyval
}.

(** What [except Exception] catches. *)
Definition is_Exception (e : exn) : bool :=
  match exn_class_of e with OtherBaseException _ => false | _ => true end.

(** What [ignoring(ValueError)] swallows. *)
Definition is_ValueError (e : exn) : bool :=
  match exn_class_of e with ValueError => true | _ => false end.

(** The builtins the code calls on values it does not control. *)
Class Builtins : Type := {
  py_int : pyval -> exn + Z;   (* int(x) *)
  py_str : pyval -> string     (* str(x), which is also what %s and {} render *)
}.

(** [str(e)], as [BaseException.__str__] defines it from the arguments. *)
Definition exn_str `{Builtins} (e : exn) : string :=
  match exn_args e with
  | [] => ""
  | [a] => py_str a
  | args => py_str (PTuple args)
  end.

(** ** Sequences *)

(** [range(m)]. *)
Definition py_range (m : Z) : list Z := map Z.of_nat (seq 0 (Z.to_nat m)).

(** [l[i]] with Python's negative indices; [None] stands for IndexError. *)
Definition py_index {A : Type} (l : list A) (i : Z) : option A :=
  let len := Z.of_nat (length l) in
  let j := if i <? 0 then i + len else i in
  if (0 <=? j) && (j <? len) then nth_error l (Z.to_nat j) else None.

(** A list comprehension whose element expression may raise. *)
Fixpoint comprehension {A B : Type} (f : A -> option B) (l : list A)
  : option (list B) :=
  match l with
  | [] => Some []
  | a :: l' =>
      match f a with
      | None => None
      | Some b =>
          match comprehension f l' with
          | None => None
          | Some bs => Some (b :: bs)
          end
      end
  end.

(** [s.split(sep)] for a one-character separator: the pieces between the
    occurrences of [sep], always at least one piece. *)
Fixpoint py_split (sep : ascii) (s : string) : list string :=
  match s with
  | EmptyString => [EmptyString]
  | String c s' =>
      if Ascii.eqb c sep then EmptyString :: py_split sep s'
      else
        match py_split sep s' with
        | [] => [String c EmptyString]
        | p :: ps => String c p :: ps
        end
  end.

(** How often a character occurs in a string. *)
Fixpoint count_char (c : ascii) (s : string) : nat :=
  match s with
  | EmptyString => 0
  | String c' s' => (if Ascii.eqb c' c then 1 else 0) + count_char c s'
  end.

(** ** Log capture: [ServerNode.get_logs] *)

Module Logs.

Record log_record : Type := mk_record {
  levelname : string;
  message : string
}.

Section GetLogs.

(** [deque_handler.format], the formatter configured in [_setup_logging]. *)
Variable format : log_record -> string.

Definition entry (msg : log_record) : string * string :=
  (levelname msg, format msg).

(** [get_logs(n=n)] over the current content of the handler's deque,
    oldest entry first.  [inl] of an IndexError would be an index out of
    range in the comprehension of line 161. *)
Definition get_logs (deque : list log_record) (n : option Z)
  : exn + list (string * string) :=
  match n with
  | None => inr (map entry deque)
  | Some n =>
      let L := deque in
      match comprehension (fun i => py_index L (- i))
              (py_range (Z.min n (Z.of_nat (length L)))) with
      | Some L' => inr (map entry L')
      | None => inl (Exn IndexError [PStr "deque index out of range"])
      end
  end.

End GetLogs.

End Logs.

(** ** Collaborators

    Everything [node.py] imports and calls but does not define.  They act
    on a [world] (sockets, the event loop, the connection pool, the live
    service objects and their attributes) which the node threads through
    its own methods. *)

(** How an awaited collaborator ends when run under a deadline:
    with [Some t] the deadline of [asyncio.wait_for], with [None] no
    deadline, and then [Pending] means that it never completes. *)
Inductive outcome : Type :=
| Finished
| Failed (e : exn)
| Pending.

(** The dict [{"address": host, "port": port}] that
    [clean_dashboard_address] returns and [listen] receives as keywords. *)
Record http_address : Type := mk_address {
  address : pyval;
  hport : pyval
}.

Inductive verify_mode : Type :=
| CERT_NONE
| CERT_REQUIRED.

(** The attributes of an [ssl.SSLContext] that the code sets. *)
Record ssl_context : Type := mk_ssl {
  cafile : pyval;
  cert_chain : option (pyval * pyval);  (* (certfile, keyfile) *)
  check_hostname : bool;
  verify : verify_mode
}.

Class Collaborators : Type := {
  world : Type;
  service : Type;       (* a live service object, the HTTP server included *)
  factory : Type;       (* a service class, the v of service_specs *)
  application : Type;   (* a RoutingApplication *)
  (* v(self, io_loop=self.loop, **kwargs) *)
  construct : factory -> list (string * pyval) -> world -> (exn + service) * world;
  (* service.listen((host, port)) *)
  listen : service -> pyval * pyval -> world -> option exn * world;
  (* service.stop() *)
  stop : service -> world -> option exn * world;
  (* service.port, read and assigned *)
  port : service -> world -> pyval;
  set_port : service -> pyval -> world -> world;
  port_set_port : forall s p w, port s (set_port s p w) = p;
  (* await self.rpc.start() *)
  pool_start : option pyval -> world -> outcome * world;
  (* dask.config.get(key) *)
  config_get : string -> world -> pyval;
  (* RoutingApplication(routes,) *)
  routing_application : pyval -> world -> (exn + application) * world;
  (* ssl.create_default_context(cafile=..., purpose=ssl.Purpose.SERVER_AUTH) *)
  create_default_context : pyval -> world -> option exn * world;
  (* ssl_options.load_cert_chain(tls_cert, keyfile=tls_key) *)
  load_cert_chain : pyval -> pyval -> world -> option exn * world;
  (* HTTPServer(self.http_application, ssl_options=ssl_options) *)
  http_server_new :
    application -> option ssl_context -> world -> (exn + service) * world;
  (* clean_dashboard_address(addr) *)
  clean_dashboard_address : pyval -> exn + http_address;
  (* get_address_host(address) *)
  get_address_host : pyval -> exn + pyval;
  (* self.http_server.listen with the keywords of http_address *)
  http_listen : service -> http_address -> world -> option exn * world;
  (* get_tcp_server_address(self.http_server): the (host, port) of the socket *)
  get_tcp_server_address : service -> world -> exn + (pyval * pyval)
}.

(** ** The node *)

(** A key of [service_specs]: a plain name, or the pair (name, port-spec).
    Names are strings; a tuple key that is not a pair, which line 103
    cannot unpack, is not a key of this type. *)
Inductive service_key : Type :=
| KName (name : string)
| KPair (name : string) (port_spec : pyval).

(** A value of [service_specs]: a service class, or (class, kwargs). *)
Inductive descriptor `{Collaborators} : Type :=
| DClass (v : factory)
| DPair (v : factory) (kwargs : list (string * pyval)).

Record node `{Collaborators} : Type := mk_node {
  status : string;
  type_name : string;                 (* type(self).__name__ *)
  death_timeout : option pyval;       (* None: the attribute is not set *)
  service_specs : list (service_key * descriptor);
  services : list (string * service); (* a dict, in insertion order *)
  start_address : pyval;              (* self._start_address *)
  http_application : option application;
  http_server : option service;
  warned : list string;               (* what warnings.warn was given, oldest first *)
  wd : world
}.
Arguments mk_node {_} _ _ _ _ _ _ _ _ _ _.

(** The result of running a method: a value, a raised exception, or
    ([Hang]) an await that never returns. *)
Inductive result (A : Type) : Type :=
| Ok (a : A)
| Raise (e : exn)
| Hang.
Arguments Ok {A} a.
Arguments Raise {A} e.
Arguments Hang {A}.

Section NodeState.
Context `{Collaborators}.

Definition set_status (st : string) (s : node) : node :=
  mk_node st (type_name s) (death_timeout s) (service_specs s) (services s)
          (start_address s) (http_application s) (http_server s)
          (warned s) (wd s).

Definition set_services (d : list (string * service)) (s : node) : node :=
  mk_node (status s) (type_name s) (death_timeout s) (service_specs s) d
          (start_address s) (http_application s) (http_server s)
          (warned s) (wd s).

Definition set_http_application (a : application) (s : node) : node :=
  mk_node (status s) (type_name s) (death_timeout s) (service_specs s)
          (services s) (start_address s) (Some a) (http_server s)
          (warned s) (wd s).

Definition set_http_server (h : service) (s : node) : node :=
  mk_node (status s) (type_name s) (death_timeout s) (service_specs s)
          (services s) (start_address s) (http_application s) (Some h)
          (warned s) (wd s).

Definition set_warned (l : list string) (s : node) : node :=
  mk_node (status s) (type_name s) (death_timeout s) (service_specs s)
          (services s) (start_address s) (http_application s)
          (http_server s) l (wd s).

Definition set_wd (w : world) (s : node) : node :=
  mk_node (status s) (type_name s) (death_timeout s) (service_specs s)
          (services s) (start_address s) (http_application s)
          (http_server s) (warned s) w.

(** [d[k] = v] on a dict kept in insertion order: an existing key keeps
    its place, a new one goes last. *)
Fixpoint dict_set {V : Type} (k : string) (v : V) (d : list (string * V))
  : list (string * V) :=
  match d with
  | [] => [(k, v)]
  | (k', v') :: d' =>
      if String.eqb k' k then (k, v) :: d' else (k', v') :: dict_set k v d'
  end.

(** [d.get(k)]. *)
Fixpoint dict_get {V : Type} (k : string) (d : list (string * V)) : option V :=
  match d with
  | [] => None
  | (k', v') :: d' => if String.eqb k' k then Some v' else dict_get k d'
  end.

(** *** Computations: state and exceptions

    A method is a function from the node before to a result and the
    node after.  The node after a raise is the node as the method left
    it at the raise. *)

Definition M (A : Type) : Type := node -> result A * node.

Definition ret {A : Type} (a : A) : M A := fun s => (Ok a, s).

Definition bind {A B : Type} (m : M A) (k : A -> M B) : M B :=
  fun s =>
    match m s with
    | (Ok a, s') => k a s'
    | (Raise e, s') => (Raise e, s')
    | (Hang, s') => (Hang, s')
    end.

Definition raise {A : Type} (e : exn) : M A := fun s => (Raise e, s).

(** [try: body / except Exception as e: handler e]. *)
Definition try_except {A : Type} (body : M A) (handler : exn -> M A) : M A :=
  fun s =>
    match body s with
    | (Raise e, s') =>
        if is_Exception e then handler e s' else (Raise e, s')
    | r => r
    end.

(** A collaborator that may raise and returns a value. *)
Definition call {A : Type} (f : world -> (exn + A) * world) : M A :=
  fun s =>
    match f (wd s) with
    | (inr a, w) => (Ok a, set_wd w s)
    | (inl e, w) => (Raise e, set_wd w s)
    end.

(** A collaborator that may raise and returns nothing. *)
Definition call_ (f : world -> option exn * world) : M unit :=
  fun s =>
    match f (wd s) with
    | (None, w) => (Ok tt, set_wd w s)
    | (Some e, w) => (Raise e, set_wd w s)
    end.

(** A pure expression that may raise. *)
Definition lift {A : Type} (r : exn + A) : M A :=
  fun s => match r with inr a => (Ok a, s) | inl e => (Raise e, s) end.

(** [warnings.warn(msg)]. *)
Definition warn (msg : string) : M unit :=
  fun s => (Ok tt, set_warned (warned s ++ [msg]) s).

End NodeState.

Declare Scope node_scope.
Delimit Scope node_scope with node.
Notation "x <- m ;; k" := (bind m (fun x => k))
  (at level 61, m at next level, right associativity) : node_scope.
Notation "m ;; k" := (bind m (fun _ => k))
  (at level 61, right associativity) : node_scope.
Local Open Scope node_scope.

Definition nl : string := String (ascii_of_nat 10) EmptyString.

(** ** Service orchestration: [start_services], [stop_services],
    [service_ports] *)

Section Services.
Context `{Builtins} `{Collaborators}.

(** Lines 97-98: the default listen address, [0.0.0.0] rewritten. *)
Definition clean_default (default_listen_ip : pyval) : pyval :=
  match default_listen_ip with
  | PStr s => if String.eqb s "0.0.0.0" then PStr "" else default_listen_ip
  | _ => default_listen_ip
  end.

(** Lines 102-105: the service name and the port-spec of a key. *)
Definition unpack_key (k : service_key) : string * pyval :=
  match k with
  | KPair k port => (k, port)
  | KName k => (k, PInt 0)
  end.

(** Lines 107-108. *)
Definition split_port (port : pyval) : pyval :=
  match port with
  | PStr s => PList (map PStr (py_split ":" s))
  | _ => port
  end.

(** Lines 101 and 107-116: [(listen_ip, port)] of a port-spec, or the
    exception raised on the way. *)
Definition resolve_port (port : pyval) : exn + (pyval * pyval) :=
  let listen_ip := PNone in
  let port := split_port port in
  match port with
  | PTuple l | PList l =>
      match l with
      | [elem0; elem1] =>
          match py_int elem1 with
          | inr z => inr (elem0, PInt z)
          | inl e => inl e
          end
      | [elem0] => inr (elem0, PInt 0)
      | _ => inl (Exn ValueError [port])
      end
  | _ => inr (listen_ip, port)
  end.

(** A port-spec that is, once split, a sequence of a length other than 1
    and 2. *)
Definition malformed (port : pyval) : bool :=
  match split_port port with
  | PTuple l | PList l =>
      negb (Nat.eqb (length l) 1 || Nat.eqb (length l) 2)
  | _ => false
  end.

(** Line 126: the host handed to [listen]. *)
Definition listen_host (listen_ip default_listen_ip : pyval) : pyval :=
  if is_none listen_ip then default_listen_ip else listen_ip.

(** The address [listen] is called with for a key of [service_specs]:
    lines 97-116 and 126 taken together, the spec's
    [resolve(spec, default_host)]. *)
Definition resolve (k : service_key) (default_host : pyval)
  : exn + (pyval * pyval) :=
  match resolve_port (snd (unpack_key k)) with
  | inl e => inl e
  | inr (listen_ip, port) =>
      inr (listen_host listen_ip (clean_default default_host), port)
  end.

(** Lines 118-121. *)
Definition unpack_descriptor (v : descriptor)
  : factory * list (string * pyval) :=
  match v with
  | DPair v kwargs => (v, kwargs)
  | DClass v => (v, [])
  end.

(** Lines 131-133: the text of the warning. *)
Definition launch_warning (k : string) (port : pyval) (e : exn) : string :=
  (nl ++ "Could not launch service '" ++ k ++ "' on port " ++ py_str port
      ++ ". " ++ "Got the following message:" ++ nl ++ nl ++ exn_str e)%string.

(** Lines 124-128: the body of the [try]. *)
Definition launch (k : string) (v : factory) (kwargs : list (string * pyval))
    (host port : pyval) : M unit :=
  service <- call (construct v kwargs) ;;
  call_ (listen service (host, port)) ;;
  fun s => (Ok tt, set_services (dict_set k service (services s)) s).

(** Lines 101-135: one turn of the loop, [default_listen_ip] already
    cleaned. *)
Definition start_service (default_listen_ip : pyval)
    (kv : service_key * descriptor) : M unit :=
  let (k, port) := unpack_key (fst kv) in
  r <- lift (resolve_port port) ;;
  let (listen_ip, port) := (r : pyval * pyval) in
  let (v, kwargs) := unpack_descriptor (snd kv) in
  try_except
    (launch k v kwargs (listen_host listen_ip default_listen_ip) port)
    (fun e => warn (launch_warning k port e)).

(** The [for] loop over [service_specs.items()]. *)
Fixpoint start_each (default_listen_ip : pyval)
    (items : list (service_key * descriptor)) : M unit :=
  match items with
  | [] => ret tt
  | kv :: items' =>
      start_service default_listen_ip kv ;;
      start_each default_listen_ip items'
  end.

Definition start_services (default_listen_ip : pyval) : M unit :=
  fun s =>
    start_each (clean_default default_listen_ip) (service_specs s) s.

(** The [for] loop over [services.values()]. *)
Fixpoint stop_each (l : list (string * service)) : M unit :=
  match l with
  | [] => ret tt
  | (_, service) :: l' => call_ (stop service) ;; stop_each l'
  end.

Definition stop_services : M unit :=
  fun s => stop_each (services s) s.

(** The world after [stop()] has run and returned on each handle of a
    registry, in registry order. *)
Definition all_stopped (l : list (string * service)) (w : world) : world :=
  fold_left (fun w kv => snd (stop (snd kv) w)) l w.

(** The [service_ports] property. *)
Definition service_ports (s : node) : list (string * pyval) :=
  map (fun kv => (fst kv, port (snd kv) (wd s))) (services s).

End Services.

(** What one node keeps of another: every attribute but the registry, the
    warnings and the world is the same, the warnings of the first are a
    prefix of the warnings of the second, and every key registered in the
    first is registered in the second. *)
Definition grows `{Collaborators} (s s' : node) : Prop :=
  status s' = status s /\
  type_name s' = type_name s /\
  death_timeout s' = death_timeout s /\
  service_specs s' = service_specs s /\
  start_address s' = start_address s /\
  http_application s' = http_application s /\
  http_server s' = http_server s /\
  (exists more, warned s' = warned s ++ more) /\
  (forall k, dict_get k (services s) <> None ->
             dict_get k (services s') <> None).

(** ** Lifecycle: [start] and [__await__] *)

(** [close] is defined by the concrete node class ([Scheduler], [Worker],
    ...), above [ServerNode]; it is free to change the whole node. *)
Class Closing `{Collaborators} : Type := {
  close : pyval -> M unit    (* await self.close(timeout=t) *)
}.

(** What [await node] evaluates to. *)
Inductive awaited : Type :=
| AwNone
| AwSelf.

Section Lifecycle.
Context `{Builtins} `{Collaborators} `{!Closing}.

(** [Node.start]: [await self.rpc.start()], run under a deadline. *)
Definition Node_start (deadline : option pyval) : M unit :=
  fun s =>
    match pool_start deadline (wd s) with
    | (Finished, w) => (Ok tt, set_wd w s)
    | (Failed e, w) => (Raise e, set_wd w s)
    | (Pending, w) => (Hang, set_wd w s)
    end.

(** [ServerNode.start]. *)
Definition ServerNode_start (deadline : option pyval) : M awaited :=
  Node_start deadline ;; ret AwSelf.

(** [await asyncio.wait_for(future, timeout=timeout)]: the future runs
    under the deadline; one that is still pending when the deadline
    passes is cancelled and asyncio.TimeoutError is raised. *)
Definition asyncio_wait_for {A : Type} (future : option pyval -> M A)
    (timeout : pyval) : M A :=
  fun s =>
    match future (Some timeout) s with
    | (Hang, s') => (Raise (Exn AsyncTimeoutError []), s')
    | r => r
    end.

(** Lines 185-187. *)
Definition timeout_message (name : string) (timeout : pyval) : string :=
  (name ++ " failed to start in " ++ py_str timeout ++ " seconds")%string.

(** Lines 179-188: the local coroutine [wait_for]. *)
Definition wait_for {A : Type} (future : option pyval -> M A)
    (timeout : pyval) : M awaited :=
  try_except
    (asyncio_wait_for future timeout ;; ret AwNone)
    (fun _ =>
       close (PInt 1) ;;
       fun s =>
         raise (Exn TimeoutError
                  [PStr (timeout_message (type_name s) timeout)]) s).

(** [gen.sleep(0)]: one turn of the event loop, nothing of the node
    touched. *)
Definition gen_sleep0 : M awaited := ret AwNone.

(** [getattr(self, "death_timeout", 0)]. *)
Definition get_death_timeout (s : node) : pyval :=
  match death_timeout s with
  | Some t => t
  | None => PInt 0
  end.

(** Lines 171-191: [await node]. *)
Definition await_node : M awaited :=
  fun s =>
    if String.eqb (status s) "running" then gen_sleep0 s
    else
      let future := ServerNode_start in
      let timeout := get_death_timeout s in
      if truthy timeout then wait_for future timeout s
      else future None s.

(** Lines 164-166: [__aenter__], [await self] and then [return self]. *)
Definition aenter : M awaited := await_node ;; ret AwSelf.

End Lifecycle.

(** ** Dashboard: [start_http_server] *)

Section Dashboard.
Context `{Builtins} `{Collaborators}.

(** Lines 206-218: the TLS options handed to the server. *)
Definition tls_options (ssl_options : option ssl_context)
  : M (option ssl_context) :=
  fun s =>
    let tls_key := config_get "distributed.scheduler.dashboard.tls.key" (wd s) in
    let tls_cert := config_get "distributed.scheduler.dashboard.tls.cert" (wd s) in
    let tls_ca_file :=
      config_get "distributed.scheduler.dashboard.tls.ca-file" (wd s) in
    if truthy tls_cert then
      (call_ (create_default_context tls_ca_file) ;;
       call_ (load_cert_chain tls_cert tls_key) ;;
       ret (Some (mk_ssl tls_ca_file (Some (tls_cert, tls_key))
                         false CERT_NONE))) s
    else ret ssl_options s.

(** Line 226: [address[0]]. *)
Definition first_of (address : pyval) : exn + pyval :=
  match address with
  | PTuple l | PList l =>
      match l with
      | a :: _ => inr a
      | [] => inl (Exn IndexError [PStr "index out of range"])
      end
  | _ => inr address
  end.

(** Lines 223-229: a host taken from the node's own listen address. *)
Definition infer_address (a : http_address) : M http_address :=
  fun s =>
    if negb (truthy (address a)) then
      match first_of (start_address s) with
      | inl e => (Raise e, s)
      | inr addr =>
          if truthy addr then
            match get_address_host addr with
            | inr host => (Ok (mk_address host (hport a)), s)
            | inl e =>
                if is_ValueError e then (Ok a, s) else (Raise e, s)
            end
          else (Ok a, s)
      end
    else (Ok a, s).

(** [tlz.merge(http_address, {"port": 0})]. *)
Definition merge_port0 (a : http_address) : http_address :=
  mk_address (address a) (PInt 0).

(** Lines 230-235: the bind and its one retry; the value is
    [changed_port]. *)
Definition bind_server (server : service) (a : http_address) : M bool :=
  try_except
    (call_ (http_listen server a) ;; ret false)
    (fun _ => call_ (http_listen server (merge_port0 a)) ;; ret true).

(** Lines 241-245: the text of the warning. *)
Definition port_warning (requested used : pyval) : string :=
  ("Port " ++ py_str requested ++ " is already in use." ++ nl
     ++ "Perhaps you already have a cluster running?" ++ nl
     ++ "Hosting the HTTP server on port " ++ py_str used ++ " instead")%string.

(** Lines 230-246, with [self.http_server] and [http_address] as they
    stand at line 230. *)
Definition bind_dashboard (server : service) (a : http_address)
    (dashboard_address : pyval) : M unit :=
  changed_port <- bind_server server a ;;
  addr <- (fun s => lift (get_tcp_server_address server (wd s)) s) ;;
  (fun s => (Ok tt, set_wd (set_port server (snd addr) (wd s)) s)) ;;
  (fun s => (Ok tt, set_services (dict_set "dashboard" server (services s)) s)) ;;
  if (changed_port : bool) && truthy dashboard_address then
    fun s => warn (port_warning (hport a) (port server (wd s))) s
  else ret tt.

(** Lines 203-229: what precedes the bind; the value is the server and
    the address it is to listen on. *)
Definition prepare (routes dashboard_address default_port : pyval)
    (ssl_options : option ssl_context) : M (service * http_address) :=
  app <- call (routing_application routes) ;;
  (fun s => (Ok tt, set_http_application app s)) ;;
  ssl_options <- tls_options ssl_options ;;
  server <- call (http_server_new app ssl_options) ;;
  (fun s => (Ok tt, set_http_server server s)) ;;
  a <- lift (clean_dashboard_address (py_or dashboard_address default_port)) ;;
  a <- infer_address a ;;
  ret (server, a).

(** Lines 198-246. *)
Definition start_http_server (routes dashboard_address default_port : pyval)
    (ssl_options : option ssl_context) : M unit :=
  sa <- prepare routes dashboard_address default_port ssl_options ;;
  bind_dashboard (fst sa) (snd sa) dashboard_address.

End Dashboard.

(** ** A concrete world

    One instance of the builtins and of the collaborators, small enough to
    run: services are numbered objects, a socket binds a TCP port unless
    another socket holds it, port 0 picks a free one.  The general
    theorems below do not depend on it; it serves to run the code on
    concrete inputs. *)

Module Demo.

Definition dec (z : Z) : string := NilZero.string_of_int (Z.to_int z).

Fixpoint repr (v : pyval) : string :=
  let join :=
    fix join (l : list pyval) : string :=
      match l with
      | [] => ""
      | [x] => repr x
      | x :: l' => (repr x ++ ", " ++ join l')%string
      end in
  match v with
  | PNone => "None"
  | PInt z => dec z
  | PStr s => ("'" ++ s ++ "'")%string
  | PTuple [x] => ("(" ++ repr x ++ ",)")%string
  | PTuple l => ("(" ++ join l ++ ")")%string
  | PList l => ("[" ++ join l ++ "]")%string
  end.

Definition str (v : pyval) : string :=
  match v with
  | PStr s => s
  | _ => repr v
  end.

(** [int] on an int, and on a string that is a decimal numeral with an
    optional minus sign. *)
Definition int (v : pyval) : exn + Z :=
  match v with
  | PInt z => inr z
  | PStr s =>
      match NilZero.int_of_string s with
      | Some d => inr (Z.of_int d)
      | None =>
          inl (Exn ValueError
                 [PStr ("invalid literal for int() with base 10: " ++ repr v)])
      end
  | _ => inl (Exn TypeError [PStr "int() argument must be a string or a number"])
  end.

Definition builtins : Builtins := {| py_int := int; py_str := str |}.

Record dworld : Type := mk_dworld {
  used : list Z;               (* ports held by other processes *)
  socks : list (nat * Z);      (* the port each live socket is bound to *)
  attrs : list (nat * pyval);  (* the port attribute of each object *)
  stopped : list nat;          (* objects whose stop() ran, latest first *)
  next_id : nat;
  pool_calls : nat;            (* how often the pool was started *)
  pool_mode : outcome          (* how the pool's start ends *)
}.

Inductive dfactory : Type :=
| Good    (* constructs *)
| Bad.    (* raises in its constructor *)

Definition taken (w : dworld) (p : Z) : bool :=
  existsb (Z.eqb p) (used w ++ map snd (socks w)).

Definition os_error : exn :=
  Exn (OtherException "OSError") [PStr "Address already in use"].

(** Bind object [id] to [p], or to a free port when [p] is 0; [publish]
    says whether the object also sets its own port attribute. *)
Definition bind_socket (publish : bool) (id : nat) (p : pyval) (w : dworld)
  : option exn * dworld :=
  match p with
  | PInt p =>
      let q := if p =? 0 then 49152 + Z.of_nat id else p in
      if taken w q then (Some os_error, w)
      else
        (None,
         mk_dworld (used w) ((id, q) :: socks w)
                   (if publish then (id, PInt q) :: attrs w else attrs w)
                   (stopped w) (next_id w) (pool_calls w) (pool_mode w))
  | _ => (Some (Exn TypeError [PStr "an integer is required"]), w)
  end.

Definition alloc (w : dworld) : nat * dworld :=
  (next_id w,
   mk_dworld (used w) (socks w) (attrs w) (stopped w) (S (next_id w))
             (pool_calls w) (pool_mode w)).

Fixpoint lookup {V : Type} (id : nat) (l : list (nat * V)) : option V :=
  match l with
  | [] => None
  | (i, v) :: l' => if Nat.eqb i id then Some v else lookup id l'
  end.

Definition dconstruct (v : dfactory) (kwargs : list (string * pyval))
    (w : dworld) : (exn + nat) * dworld :=
  match v with
  | Good => let (id, w') := alloc w in (inr id, w')
  | Bad => (inl (Exn (OtherException "RuntimeError") [PStr "boom"]), w)
  end.

Definition dstop (id : nat) (w : dworld) : option exn * dworld :=
  (None,
   mk_dworld (used w) (socks w) (attrs w) (id :: stopped w) (next_id w)
             (pool_calls w) (pool_mode w)).

Definition dport (id : nat) (w : dworld) : pyval :=
  match lookup id (attrs w) with
  | Some p => p
  | None => PNone
  end.

Definition dset_port (id : nat) (p : pyval) (w : dworld) : dworld :=
  mk_dworld (used w) (socks w) ((id, p) :: attrs w) (stopped w) (next_id w)
            (pool_calls w) (pool_mode w).

Definition dpool_start (deadline : option pyval) (w : dworld)
  : outcome * dworld :=
  (pool_mode w,
   mk_dworld (used w) (socks w) (attrs w) (stopped w) (next_id w)
             (S (pool_calls w)) (pool_mode w)).

Definition dclean (addr : pyval) : exn + http_address :=
  match addr with
  | PInt p => inr (mk_address (PStr "") (PInt p))
  | PTuple [h; PInt p] => inr (mk_address h (PInt p))
  | _ => inl (Exn ValueError [addr])
  end.

Definition dhost (a : pyval) : exn + pyval :=
  match a with
  | PStr _ => inr a
  | _ => inl (Exn ValueError [a])
  end.

Definition dtcp_address (id : nat) (w : dworld) : exn + (pyval * pyval) :=
  match lookup id (socks w) with
  | Some q => inr (PStr "", PInt q)
  | None => inl (Exn (OtherException "RuntimeError") [PStr "not listening"])
  end.

Lemma dport_dset_port (s : nat) (p : pyval) (w : dworld) :
  dport s (dset_port s p w) = p.
Proof. unfold dport, dset_port; simpl. now rewrite Nat.eqb_refl. Qed.

Definition collaborators : Collaborators := {|
  world := dworld;
  service := nat;
  factory := dfactory;
  application := pyval;
  construct := dconstruct;
  listen := fun id hp => bind_socket true id (snd hp);
  stop := dstop;
  port := dport;
  set_port := dset_port;
  port_set_port := dport_dset_port;
  pool_start := dpool_start;
  config_get := fun _ _ => PNone;
  routing_application := fun routes w => (inr routes, w);
  create_default_context := fun _ w => (None, w);
  load_cert_chain := fun _ _ w => (None, w);
  http_server_new := fun _ _ w => let (id, w') := alloc w in (inr id, w');
  clean_dashboard_address := dclean;
  get_address_host := dhost;
  http_listen := fun id a => bind_socket false id (hport a);
  get_tcp_server_address := dtcp_address
|}.

(** A [close] that succeeds, and one that raises. *)
Definition closing_ok : @Closing collaborators :=
  {| close := fun _ s => (Ok tt, set_status "closed" s) |}.

Definition comm_closed : exn :=
  Exn (OtherException "CommClosedError") [PStr "in close"].

Definition closing_raises : @Closing collaborators :=
  {| close := fun _ s => (Raise comm_closed, set_status "closing" s) |}.

Definition world0 (mode : outcome) : dworld :=
  mk_dworld [8787] [] [] [] 0 0 mode.

(** A node of class [Worker] with an empty registry. *)
Definition node0 (st : string) (timeout : option pyval)
    (specs : list (service_key * @descriptor collaborators))
    (mode : outcome) : @node collaborators :=
  mk_node st "Worker" timeout specs [] (PStr "tcp://127.0.0.1:0") None None []
          (world0 mode).

#[local] Existing Instance collaborators.

Definition good : descriptor := DClass Good.
Definition bad : descriptor := DClass Bad.

(** The first service cannot be constructed, the second can. *)
Definition specs_bad_first : list (service_key * descriptor) :=
  [(KName "a", bad); (KPair "b" (PInt 9000), good)].

(** The second port-spec splits into three pieces. *)
Definition specs_malformed : list (service_key * descriptor) :=
  [(KPair "b" (PInt 9000), good);
   (KPair "c" (PStr "x:y:z"), good);
   (KName "d", good)].

(** A node with one live service, registered as "b". *)
Definition node_b : node :=
  mk_node "running" "Worker" None [] [("b", 0%nat)] (PStr "tcp://127.0.0.1:0")
          None None []
          (mk_dworld [8787] [(0%nat, 9000)] [(0%nat, PInt 9000)] [] 1 1 Finished).

Definition pool_error : exn :=
  Exn (OtherException "OSError") [PStr "pool unreachable"].

Definition r1 : Logs.log_record := Logs.mk_record "INFO" "first".
Definition r2 : Logs.log_record := Logs.mk_record "WARNING" "second".
Definition r3 : Logs.log_record := Logs.mk_record "ERROR" "third".

End Demo.

(** ** A world where things go wrong

    A second instance, built on the first: a service class that is
    interrupted in its constructor, an object whose [stop()] raises, and
    a dashboard certificate that is configured, with a certificate file
    that loads or not. *)

Module Faulty.

Definition interrupt : exn := Exn (OtherBaseException "KeyboardInterrupt") [].

Definition stop_error : exn :=
  Exn (OtherException "OSError") [PStr "socket already closed"].

Definition cert_error : exn :=
  Exn (OtherException "FileNotFoundError") [PStr "cert.pem"].

Definition fconstruct (v : Demo.dfactory) (kwargs : list (string * pyval))
    (w : Demo.dworld) : (exn + nat) * Demo.dworld :=
  match v with
  | Demo.Good => Demo.dconstruct v kwargs w
  | Demo.Bad => (inl interrupt, w)
  end.

(** Object 0 cannot be stopped. *)
Definition fstop (id : nat) (w : Demo.dworld) : option exn * Demo.dworld :=
  if Nat.eqb id 0 then (Some stop_error, w) else Demo.dstop id w.

Definition fconfig (key : string) (w : Demo.dworld) : pyval :=
  if String.eqb key "distributed.scheduler.dashboard.tls.cert"
  then PStr "cert.pem"
  else if String.eqb key "distributed.scheduler.dashboard.tls.key"
  then PStr "key.pem"
  else PNone.

Definition collaborators (cert_loads : bool) : Collaborators := {|
  world := Demo.dworld;
  service := nat;
  factory := Demo.dfactory;
  application := pyval;
  construct := fconstruct;
  listen := fun id hp => Demo.bind_socket true id (snd hp);
  stop := fstop;
  port := Demo.dport;
  set_port := Demo.dset_port;
  port_set_port := Demo.dport_dset_port;
  pool_start := Demo.dpool_start;
  config_get := fconfig;
  routing_application := fun routes w => (inr routes, w);
  create_default_context := fun _ w => (None, w);
  load_cert_chain :=
    fun _ _ w => (if cert_loads then None else Some cert_error, w);
  http_server_new :=
    fun _ _ w => let (id, w') := Demo.alloc w in (inr id, w');
  clean_dashboard_address := Demo.dclean;
  get_address_host := Demo.dhost;
  http_listen := fun id a => Demo.bind_socket false id (hport a);
  get_tcp_server_address := Demo.dtcp_address
|}.

Definition good (b : bool) : @descriptor (collaborators b) :=
  @DClass (collaborators b) Demo.Good.

Definition bad (b : bool) : @descriptor (collaborators b) :=
  @DClass (collaborators b) Demo.Bad.

(** A node with the given declared services and registry. *)
Definition node_of (b : bool)
    (specs : list (service_key * @descriptor (collaborators b)))
    (registry : list (string * nat)) : @node (collaborators b) :=
  @mk_node (collaborators b) "created" "Scheduler" None specs registry
           (PStr "tcp://127.0.0.1:0") None None [] (Demo.world0 Finished).

End Faulty.

(** More nodes of the first world. *)

Module Cases.

(** A node that listens on [addr]. *)
Definition node_at (addr : pyval) : @node Demo.collaborators :=
  @mk_node Demo.collaborators "running" "Worker" None [] [] addr None None []
           (Demo.world0 Finished).

(** The same service name declared twice, on two ports. *)
Definition specs_twice : list (service_key * @descriptor Demo.collaborators) :=
  [(KPair "a" (PInt 8000), Demo.good); (KPair "a" (PInt 9000), Demo.good)].

(** A port that is not a number, between two services that are fine. *)
Definition specs_unparsable
  : list (service_key * @descriptor Demo.collaborators) :=
  [(KPair "b" (PInt 9000), Demo.good);
   (KPair "c" (PStr "localhost:http"), Demo.good);
   (KName "d", Demo.good)].

(** A node whose default dashboard port and the first fallback port are
    both taken. *)
Definition node_crowded : @node Demo.collaborators :=
  @mk_node Demo.collaborators "running" "Worker" None [] []
           (PStr "tcp://127.0.0.1:0") None None []
           (Demo.mk_dworld [8787; 49152] [] [] [] 0 0 Finished).

End Cases.

(** * Properties *)

(** ** Sequences *)

Lemma comprehension_length {A B : Type} (f : A -> option B) (l : list A) :
  (forall a, In a l -> f a <> None) ->
  exists bs, comprehension f l = Some bs /\ length bs = length l.
Proof.
  induction l as [|a l IH]; intros Hf.
  - exists []. split; reflexivity.
  - destruct IH as [bs [E L]].
    { intros x Hx. apply Hf. now right. }
    simpl. destruct (f a) as [b|] eqn:Fa.
    + exists (b :: bs). rewrite E. split; simpl; congruence.
    + exfalso. apply (Hf a); [now left | assumption].
Qed.

Lemma comprehension_ext {A B : Type} (f g : A -> option B) (l : list A) :
  (forall a, In a l -> f a = g a) -> comprehension f l = comprehension g l.
Proof.
  induction l as [|a l IH]; intros Hfg; simpl.
  - reflexivity.
  - rewrite (Hfg a) by now left.
    rewrite IH; [reflexivity | intros x Hx; apply Hfg; now right].
Qed.

Lemma comprehension_map {A B C : Type} (f : B -> option C) (g : A -> B)
    (l : list A) :
  comprehension f (map g l) = comprehension (fun a => f (g a)) l.
Proof.
  induction l as [|a l IH]; simpl; [reflexivity | now rewrite IH].
Qed.

(** Reading a list at the offsets [b], [b+1], ... is taking a prefix. *)
Lemma comprehension_firstn {A : Type} (X : list A) :
  forall (c b : nat), (c <= length X)%nat ->
    comprehension (fun k => nth_error X (k - b)) (seq b c) = Some (firstn c X).
Proof.
  induction X as [|x X IH]; intros c b Hc.
  - simpl in Hc. assert (c = 0%nat) by lia. subst c. reflexivity.
  - destruct c as [|c]; [reflexivity|].
    simpl seq. cbn [comprehension]. rewrite Nat.sub_diag. cbn [nth_error].
    rewrite (comprehension_ext _ (fun k => nth_error X (k - S b))).
    + rewrite IH by (simpl in Hc; lia). reflexivity.
    + intros k Hk. apply in_seq in Hk.
      replace (k - b)%nat with (S (k - S b)) by lia. reflexivity.
Qed.

(** [split] cuts at every separator, and joining the pieces with the
    separator gives the string back. *)
Lemma py_split_length (sep : ascii) (s : string) :
  length (py_split sep s) = S (count_char sep s).
Proof.
  induction s as [|c s IH]; [reflexivity|].
  cbn [py_split count_char]. destruct (Ascii.eqb c sep).
  - cbn [length]. now rewrite IH.
  - destruct (py_split sep s) as [|p ps]; [discriminate IH|].
    cbn [length] in *. exact IH.
Qed.

Lemma py_split_join (sep : ascii) (s : string) :
  String.concat (String sep EmptyString) (py_split sep s) = s.
Proof.
  induction s as [|c s IH]; [reflexivity|].
  pose proof (py_split_length sep s) as L.
  cbn [py_split]. destruct (Ascii.eqb c sep) eqn:E.
  - apply Ascii.eqb_eq in E. subst c.
    destruct (py_split sep s) as [|p ps]; [discriminate L|].
    change (String.concat (String sep EmptyString) (EmptyString :: p :: ps))
      with (String sep (String.concat (String sep EmptyString) (p :: ps))).
    now rewrite IH.
  - destruct (py_split sep s) as [|p ps]; [discriminate L|].
    destruct ps as [|q ps].
    + cbn in IH |- *. now rewrite IH.
    + change (String.concat (String sep EmptyString) (String c p :: q :: ps))
        with (String c (String.concat (String sep EmptyString) (p :: q :: ps))).
      now rewrite IH.
Qed.

Lemma py_index_0 {A : Type} (a : A) (l : list A) :
  py_index (a :: l) 0 = Some a.
Proof.
  unfold py_index. cbn [Z.ltb Z.compare Z.leb andb].
  replace (0 <? Z.of_nat (length (a :: l))) with true.
  - reflexivity.
  - symmetry. apply Z.ltb_lt. simpl length. lia.
Qed.

(** A negative index counts from the end. *)
Lemma py_index_from_end {A : Type} (l : list A) (k : nat) :
  (1 <= k <= length l)%nat ->
  py_index l (- Z.of_nat k) = nth_error (rev l) (k - 1).
Proof.
  intros Hk. unfold py_index.
  replace (- Z.of_nat k <? 0) with true by (symmetry; apply Z.ltb_lt; lia).
  replace (0 <=? - Z.of_nat k + Z.of_nat (length l)) with true
    by (symmetry; apply Z.leb_le; lia).
  replace (- Z.of_nat k + Z.of_nat (length l) <? Z.of_nat (length l)) with true
    by (symmetry; apply Z.ltb_lt; lia).
  cbn [andb].
  replace (Z.to_nat (- Z.of_nat k + Z.of_nat (length l)))
    with (length l - k)%nat by lia.
  rewrite nth_error_rev.
  replace (Nat.ltb (k - 1) (length l)) with true
    by (symmetry; apply Nat.ltb_lt; lia).
  f_equal. lia.
Qed.

Lemma py_range_succ (m : Z) :
  1 <= m ->
  py_range m = 0 :: map Z.of_nat (seq 1 (Z.to_nat m - 1)).
Proof.
  intros Hm. unfold py_range.
  replace (Z.to_nat m) with (S (Z.to_nat m - 1)) at 1 by lia.
  reflexivity.
Qed.

(** ** [get_logs] *)

Section GetLogsProperties.
Variable format : Logs.log_record -> string.

#[local] Abbreviation entry := (Logs.entry format).
#[local] Abbreviation get_logs := (Logs.get_logs format).

(** Without [n], every buffered entry comes back, oldest first. *)
Lemma get_logs_all (deque : list Logs.log_record) :
  get_logs deque None = inr (map entry deque).
Proof. reflexivity. Qed.

(** With [n], the first entry returned is [L[-0]], the oldest one; the
    others follow from the newest backwards. *)
Lemma get_logs_some (a : Logs.log_record) (deque : list Logs.log_record)
    (n : Z) :
  1 <= n ->
  get_logs (a :: deque) (Some n) =
  inr (entry a ::
       map entry
         (firstn (Z.to_nat (Z.min n (Z.of_nat (length (a :: deque)))) - 1)
                 (rev (a :: deque)))).
Proof.
  intros Hn. unfold Logs.get_logs.
  set (L := a :: deque).
  set (m := Z.min n (Z.of_nat (length L))).
  assert (Hm : 1 <= m <= Z.of_nat (length L))
    by (unfold m, L; simpl length; lia).
  rewrite (py_range_succ m) by lia.
  cbn [comprehension]. change (- 0) with 0.
  unfold L at 1. rewrite py_index_0. fold L.
  rewrite comprehension_map.
  rewrite (comprehension_ext _ (fun k => nth_error (rev L) (k - 1))).
  - rewrite comprehension_firstn by (rewrite length_rev; lia).
    reflexivity.
  - intros k Hk. apply in_seq in Hk. apply py_index_from_end. lia.
Qed.

(** X1: with [n], no index is ever out of range, whatever the buffer and
    whatever [n], negative or larger than the buffer: [get_logs] returns,
    and it returns min(n, len) entries, none when [n] is 0 or less. *)
Lemma get_logs_bounded (deque : list Logs.log_record) (n : Z) :
  exists L,
    get_logs deque (Some n) = inr L /\
    length L = Z.to_nat (Z.min n (Z.of_nat (length deque))).
Proof.
  destruct (Z_lt_le_dec n 1) as [Hn|Hn].
  - exists []. unfold Logs.get_logs, py_range.
    replace (Z.to_nat (Z.min n (Z.of_nat (length deque)))) with 0%nat by lia.
    split; reflexivity.
  - destruct deque as [|a deque].
    + exists []. unfold Logs.get_logs, py_range.
      replace (Z.to_nat (Z.min n (Z.of_nat (@length Logs.log_record []))))
        with 0%nat by (simpl; lia).
      split; reflexivity.
    + eexists. split; [apply get_logs_some; exact Hn|].
      cbn [length]. rewrite length_map, length_firstn, length_rev.
      cbn [length]. lia.
Qed.

(** C1, on the code: for a buffer holding three entries [a], [b], [c]
    (oldest first), [get_logs(None)] returns all three oldest-first, and
    [get_logs(2)] returns two entries that are the oldest and the newest,
    [a] then [c], not the two most recent [c] then [b]: the index [-i]
    starts at [-0], which is index 0. *)
Theorem get_logs_two_of_three (a b c : Logs.log_record) :
  get_logs [a; b; c] None = inr [entry a; entry b; entry c] /\
  get_logs [a; b; c] (Some 2) = inr [entry a; entry c].
Proof. split; reflexivity. Qed.

End GetLogsProperties.

(** ** The node record and the monad *)

Section StateLemmas.
Context `{Collaborators}.

Lemma set_wd_same (s : node) : set_wd (wd s) s = s.
Proof. destruct s; reflexivity. Qed.

Lemma set_wd_twice (w w' : world) (s : node) :
  set_wd w (set_wd w' s) = set_wd w s.
Proof. reflexivity. Qed.

Lemma dict_get_set {V : Type} (k : string) (v : V) (d : list (string * V)) :
  dict_get k (dict_set k v d) = Some v.
Proof.
  induction d as [|[k' v'] d IH]; simpl.
  - now rewrite String.eqb_refl.
  - destruct (String.eqb k' k) eqn:E; simpl.
    + now rewrite String.eqb_refl.
    + now rewrite E.
Qed.


Lemma bind_ok {A B : Type} (m : M A) (k : A -> M B) (s s' : node) (a : A) :
  m s = (Ok a, s') -> bind m k s = k a s'.
Proof. intros E. unfold bind. now rewrite E. Qed.

Lemma bind_raise {A B : Type} (m : M A) (k : A -> M B) (s s' : node)
    (e : exn) :
  m s = (Raise e, s') -> bind m k s = (Raise e, s').
Proof. intros E. unfold bind. now rewrite E. Qed.

Lemma bind_hang {A B : Type} (m : M A) (k : A -> M B) (s s' : node) :
  m s = (Hang, s') -> bind m k s = (Hang, s').
Proof. intros E. unfold bind. now rewrite E. Qed.

Lemma try_except_ok {A : Type} (body : M A) (h : exn -> M A) (s s' : node)
    (a : A) :
  body s = (Ok a, s') -> try_except body h s = (Ok a, s').
Proof. intros E. unfold try_except. now rewrite E. Qed.

Lemma try_except_caught {A : Type} (body : M A) (h : exn -> M A)
    (s s' : node) (e : exn) :
  body s = (Raise e, s') -> is_Exception e = true ->
  try_except body h s = h e s'.
Proof. intros E C. unfold try_except. now rewrite E, C. Qed.

Lemma try_except_passes {A : Type} (body : M A) (h : exn -> M A)
    (s s' : node) (e : exn) :
  body s = (Raise e, s') -> is_Exception e = false ->
  try_except body h s = (Raise e, s').
Proof. intros E C. unfold try_except. now rewrite E, C. Qed.

End StateLemmas.

(** ** Port resolution *)

Section ResolveProperties.
Context `{Builtins} `{Collaborators}.

(** [start_service] listens on what [resolve] computes. *)
Lemma start_service_resolve (d : pyval) (k : service_key) (v : descriptor) :
  start_service (clean_default d) (k, v) =
  match resolve k d with
  | inl e => raise e
  | inr (host, port) =>
      try_except
        (launch (fst (unpack_key k)) (fst (unpack_descriptor v))
                (snd (unpack_descriptor v)) host port)
        (fun e => warn (launch_warning (fst (unpack_key k)) port e))
  end.
Proof.
  unfold start_service, resolve. cbn [fst snd].
  destruct (unpack_key k) as [name ps]. cbn [fst snd].
  destruct (unpack_descriptor v) as [fac kw]. cbn [fst snd].
  destruct (resolve_port ps) as [e|[ip p]]; reflexivity.
Qed.

Lemma listen_host_explicit (listen_ip d : pyval) :
  listen_ip <> PNone -> listen_host listen_ip d = listen_ip.
Proof. intros Hn. destruct listen_ip; try reflexivity. now elim Hn. Qed.

(** C4: the rules of port resolution.  A string port-spec is split on
    the colon and resolved as the resulting sequence; a sequence of
    length 2 gives elem0 and int(elem1), of length 1 gives elem0 and port
    0; a bare name gives port 0 and an integer port-spec is the port;
    when the spec gives no host the default host is used, with 0.0.0.0
    rewritten to the empty string, so a bare name resolved with default
    0.0.0.0 gets the empty host. *)
Theorem port_resolution_rules :
  (forall name s d,
     resolve (KPair name (PStr s)) d =
     resolve (KPair name (PList (map PStr (py_split ":" s)))) d) /\
  (forall name elem0 elem1 d,
     let r := match py_int elem1 with
              | inr z => inr (listen_host elem0 (clean_default d), PInt z)
              | inl e => inl e
              end in
     resolve (KPair name (PTuple [elem0; elem1])) d = r /\
     resolve (KPair name (PList [elem0; elem1])) d = r) /\
  (forall name elem0 d,
     let r := inr (listen_host elem0 (clean_default d), PInt 0) in
     resolve (KPair name (PTuple [elem0])) d = r /\
     resolve (KPair name (PList [elem0])) d = r) /\
  (forall elem0 d, elem0 <> PNone -> listen_host elem0 d = elem0) /\
  (forall name d, resolve (KName name) d = inr (clean_default d, PInt 0)) /\
  (forall name p d,
     resolve (KPair name (PInt p)) d = inr (clean_default d, PInt p)) /\
  (forall d, d <> PStr "0.0.0.0" -> clean_default d = d) /\
  (forall name, resolve (KName name) (PStr "0.0.0.0") = inr (PStr "", PInt 0)).
Proof.
  repeat split; intros; try reflexivity.
  - unfold resolve, resolve_port; cbn. now destruct (py_int elem1).
  - unfold resolve, resolve_port; cbn. now destruct (py_int elem1).
  - apply listen_host_explicit; assumption.
  - destruct d as [| |s| |]; try reflexivity. unfold clean_default.
    destruct (String.eqb s "0.0.0.0") eqn:E; [|reflexivity].
    apply String.eqb_eq in E. congruence.
Qed.

End ResolveProperties.

(** On the concrete builtins: a "host:port" string. *)
Example resolve_host_port :
  @resolve Demo.builtins (KPair "bokeh" (PStr "127.0.0.1:8080")) (PStr "0.0.0.0")
  = inr (PStr "127.0.0.1", PInt 8080).
Proof. reflexivity. Qed.

(** A string without colon is a host, not a port. *)
Example resolve_bare_string :
  @resolve Demo.builtins (KPair "bokeh" (PStr "8080")) (PStr "0.0.0.0")
  = inr (PStr "8080", PInt 0).
Proof. reflexivity. Qed.

Lemma port_resolution_rules_witness :
  PStr "localhost" <> PNone /\
  @listen_host (PStr "localhost") (PStr "") = PStr "localhost" /\
  PStr "::" <> PStr "0.0.0.0" /\
  clean_default (PStr "::") = PStr "::".
Proof.
  destruct (@port_resolution_rules Demo.builtins)
    as (_ & _ & _ & Hhost & _ & _ & Hdefault & _).
  split; [discriminate|].
  split; [apply Hhost; discriminate|].
  split; [discriminate|].
  apply Hdefault; discriminate.
Defined.

(** ** [start_services] *)

Section StartProperties.
Context `{Builtins} `{Collaborators}.

Lemma resolve_port_malformed (port : pyval) :
  malformed port = true ->
  resolve_port port = inl (Exn ValueError [split_port port]).
Proof.
  unfold malformed, resolve_port.
  destruct (split_port port) as [| | |l|l]; try discriminate;
    destruct l as [|a [|b [|c l]]]; try discriminate; reflexivity.
Qed.

(** A string port-spec is malformed exactly when it holds two colons or
    more. *)
Lemma malformed_string (s : string) :
  malformed (PStr s) = Nat.leb 2 (count_char ":" s).
Proof.
  unfold malformed. cbn [split_port]. rewrite length_map, py_split_length.
  destruct (count_char ":" s) as [|[|n]]; reflexivity.
Qed.

(** A turn of the loop whose port-spec does not resolve raises, with the
    node untouched. *)
Lemma start_service_unresolved (d : pyval) (k : service_key) (v : descriptor)
    (e : exn) (s : node) :
  resolve_port (snd (unpack_key k)) = inl e ->
  start_service d (k, v) s = (Raise e, s).
Proof.
  intros E. unfold start_service. cbn [fst snd].
  destruct (unpack_key k) as [name ps]. cbn [snd] in E.
  unfold bind, lift. rewrite E. reflexivity.
Qed.

Lemma start_each_app (d : pyval) (pre post : list (service_key * descriptor))
    (s : node) :
  start_each d (pre ++ post) s =
  match start_each d pre s with
  | (Ok _, s1) => start_each d post s1
  | r => r
  end.
Proof.
  revert s. induction pre as [|kv pre IH]; intros s.
  - reflexivity.
  - cbn [app start_each]. unfold bind.
    destruct (start_service d kv s) as [[[]|e|] s1]; try reflexivity.
    apply IH.
Qed.

(** C2, as the code has it: a port-spec that is, once split, a sequence
    of a length other than 1 and 2 makes [start_services] raise
    ValueError with that sequence as argument.  The exception leaves
    [start_services]: the services declared before the offending one
    have been processed, the node is as they left it, and neither the
    offending service nor any declared after it is attempted. *)
Theorem malformed_port_spec_aborts (d : pyval)
    (pre post : list (service_key * descriptor)) (name : string)
    (port : pyval) (v : descriptor) (s s1 : node) :
  service_specs s = pre ++ (KPair name port, v) :: post ->
  malformed port = true ->
  start_each (clean_default d) pre s = (Ok tt, s1) ->
  start_services d s = (Raise (Exn ValueError [split_port port]), s1).
Proof.
  intros Hspecs Hbad Hpre. unfold start_services.
  rewrite Hspecs, start_each_app, Hpre.
  cbn [start_each]. unfold bind.
  rewrite (start_service_unresolved _ _ _ (Exn ValueError [split_port port]));
    [reflexivity|].
  cbn [unpack_key snd]. now apply resolve_port_malformed.
Qed.

(** What the body of the [try] does, by the collaborator that fails. *)
Lemma launch_construct_raises (k : string) (v : factory)
    (kwargs : list (string * pyval)) (host port : pyval) (s : node)
    (e : exn) (w : world) :
  construct v kwargs (wd s) = (inl e, w) ->
  launch k v kwargs host port s = (Raise e, set_wd w s).
Proof. intros E. unfold launch, bind, call. now rewrite E. Qed.

Lemma launch_listen_raises (k : string) (v : factory)
    (kwargs : list (string * pyval)) (host port : pyval) (s : node)
    (e : exn) (h : service) (w0 w : world) :
  construct v kwargs (wd s) = (inr h, w0) ->
  listen h (host, port) w0 = (Some e, w) ->
  launch k v kwargs host port s = (Raise e, set_wd w s).
Proof.
  intros E L. unfold launch, bind, call, call_. rewrite E. cbn [wd set_wd].
  now rewrite L.
Qed.

Lemma launch_ok (k : string) (v : factory) (kwargs : list (string * pyval))
    (host port : pyval) (s : node) (h : service) (w0 w : world) :
  construct v kwargs (wd s) = (inr h, w0) ->
  listen h (host, port) w0 = (None, w) ->
  launch k v kwargs host port s =
  (Ok tt, set_services (dict_set k h (services s)) (set_wd w s)).
Proof.
  intros E L. unfold launch, bind, call, call_. rewrite E. cbn [wd set_wd].
  now rewrite L.
Qed.


Lemma start_service_ok (d : pyval) (k : service_key) (v : descriptor)
    (listen_ip port : pyval) (s s' : node) :
  resolve_port (snd (unpack_key k)) = inr (listen_ip, port) ->
  launch (fst (unpack_key k)) (fst (unpack_descriptor v))
         (snd (unpack_descriptor v)) (listen_host listen_ip d) port s
  = (Ok tt, s') ->
  start_service d (k, v) s = (Ok tt, s').
Proof.
  intros R L. unfold start_service. cbn [fst snd].
  destruct (unpack_key k) as [name ps]. cbn [fst snd] in *.
  destruct (unpack_descriptor v) as [fac kw]. cbn [fst snd] in *.
  unfold bind at 1. unfold lift. rewrite R.
  now rewrite (try_except_ok _ _ _ _ _ L).
Qed.


End StartProperties.

Lemma malformed_port_spec_aborts_witness :
  let s := Demo.node0 "created" None Demo.specs_malformed Finished in
  let s1 := snd (@start_each Demo.builtins Demo.collaborators (PStr "")
                   [(KPair "b" (PInt 9000), Demo.good)] s) in
  service_specs s =
    [(KPair "b" (PInt 9000), Demo.good)]
      ++ (KPair "c" (PStr "x:y:z"), Demo.good)
      :: [(KName "d", Demo.good)] /\
  malformed (PStr "x:y:z") = true /\
  @start_each Demo.builtins Demo.collaborators (clean_default (PStr "0.0.0.0"))
    [(KPair "b" (PInt 9000), Demo.good)] s = (Ok tt, s1) /\
  @start_services Demo.builtins Demo.collaborators (PStr "0.0.0.0") s =
    (Raise (Exn ValueError [split_port (PStr "x:y:z")]), s1).
Proof.
  intros s s1.
  assert (H1 : service_specs s =
    [(KPair "b" (PInt 9000), Demo.good)]
      ++ (KPair "c" (PStr "x:y:z"), Demo.good)
      :: [(KName "d", Demo.good)]) by reflexivity.
  assert (H2 : malformed (PStr "x:y:z") = true) by reflexivity.
  assert (H3 : @start_each Demo.builtins Demo.collaborators
                 (clean_default (PStr "0.0.0.0"))
                 [(KPair "b" (PInt 9000), Demo.good)] s = (Ok tt, s1))
    by reflexivity.
  split; [exact H1|]. split; [exact H2|]. split; [exact H3|].
  exact (@malformed_port_spec_aborts Demo.builtins Demo.collaborators
           (PStr "0.0.0.0") _ _ "c" (PStr "x:y:z") _ s s1 H1 H2 H3).
Defined.

(** C2 as stated fails: with services "b", "c" and "d" declared in that
    order and the port-spec of "c" the string x:y:z, the ValueError leaves
    [start_services]; "b" is registered, "d" is not, and a single service
    object was ever constructed. *)
Lemma malformed_port_spec_propagates :
  let r := @start_services Demo.builtins Demo.collaborators (PStr "0.0.0.0")
             (Demo.node0 "created" None Demo.specs_malformed Finished) in
  fst r = Raise (Exn ValueError [PList [PStr "x"; PStr "y"; PStr "z"]]) /\
  dict_get "b" (services (snd r)) = Some 0%nat /\
  dict_get "d" (services (snd r)) = None /\
  Demo.next_id (wd (snd r)) = 1%nat.
Proof. repeat split. Qed.


(** ** [stop_services] and [service_ports] *)

Section StopProperties.
Context `{Builtins} `{Collaborators}.

(** Whatever the outcome, the loop changes nothing of the node but the
    world its services live in. *)
Lemma stop_each_frame (l : list (string * service)) (s : node) :
  snd (stop_each l s) = set_wd (wd (snd (stop_each l s))) s.
Proof.
  revert s. induction l as [|[k h] l IH]; intros s.
  - cbn. now rewrite set_wd_same.
  - cbn [stop_each]. unfold bind, call_.
    destruct (stop h (wd s)) as [[e|] w]; cbn [snd wd set_wd]; try reflexivity.
    rewrite IH. reflexivity.
Qed.

Lemma stop_each_ok (l : list (string * service)) (s s' : node) :
  stop_each l s = (Ok tt, s') -> wd s' = all_stopped l (wd s).
Proof.
  revert s. induction l as [|[k h] l IH]; intros s E.
  - cbn in E. now inversion E.
  - cbn [stop_each] in E. unfold bind, call_ in E.
    unfold all_stopped. cbn [fold_left snd].
    destruct (stop h (wd s)) as [[e|] w]; [discriminate|].
    apply IH in E. exact E.
Qed.

(** C6, as the code has it: when [stop_services] returns, [stop()] has
    run on every registered handle, in registry order, and the registry
    is what it was: every entry that [start_services] created is still
    there, and [service_ports] still lists every key. *)
Theorem stop_services_keeps_registry (s s' : node) :
  stop_services s = (Ok tt, s') ->
  services s' = services s /\
  wd s' = all_stopped (services s) (wd s) /\
  map fst (service_ports s') = map fst (services s).
Proof.
  intros E. unfold stop_services in E.
  pose proof (stop_each_frame (services s) s) as F. rewrite E in F.
  cbn [snd] in F.
  assert (S : services s' = services s) by (rewrite F; reflexivity).
  split; [exact S|]. split; [now apply stop_each_ok|].
  unfold service_ports. rewrite S, map_map. reflexivity.
Qed.

End StopProperties.

Lemma stop_services_keeps_registry_witness :
  let r := @stop_services Demo.collaborators Demo.node_b in
  r = (Ok tt, snd r) /\
  services (snd r) = [("b", 0%nat)] /\
  Demo.stopped (wd (snd r)) = [0%nat].
Proof.
  intros r.
  assert (E : r = (Ok tt, snd r)) by reflexivity.
  destruct (@stop_services_keeps_registry Demo.collaborators Demo.node_b
              (snd r) E) as (S & W & _).
  split; [exact E|]. split; [exact S|]. rewrite W. reflexivity.
Defined.

(** C6 as stated fails: [stop_services] returns with handle 0 stopped and
    still registered under "b", and [service_ports] still reports it. *)
Lemma stop_services_leaves_handles :
  let r := @stop_services Demo.collaborators Demo.node_b in
  fst r = Ok tt /\
  Demo.stopped (wd (snd r)) = [0%nat] /\
  services (snd r) = [("b", 0%nat)] /\
  @service_ports Demo.collaborators (snd r) = [("b", PInt 9000)].
Proof. repeat split. Qed.

(** ** [__await__] *)

Section AwaitProperties.
Context `{Builtins} `{Collaborators} `{!Closing}.

(** What the [except] clause of the local [wait_for] does from node [s]:
    close with timeout 1, then the timeout error, unless the close itself
    does not return. *)
Lemma wait_for_handler (A : Type) (future : option pyval -> M A)
    (timeout : pyval) (e : exn) (s s1 : node) :
  future (Some timeout) s = (Raise e, s1) \/
  (future (Some timeout) s = (Hang, s1) /\ e = Exn AsyncTimeoutError []) ->
  is_Exception e = true ->
  wait_for future timeout s =
  match close (PInt 1) s1 with
  | (Ok _, s2) =>
      (Raise (Exn TimeoutError
                [PStr (timeout_message (type_name s2) timeout)]), s2)
  | (Raise e', s2) => (Raise e', s2)
  | (Hang, s2) => (Hang, s2)
  end.
Proof.
  intros F C. unfold wait_for.
  assert (B : bind (asyncio_wait_for future timeout) (fun _ => ret AwNone) s
              = (Raise e, s1)).
  { unfold bind, asyncio_wait_for.
    destruct F as [F|[F ->]]; now rewrite F. }
  rewrite (try_except_caught _ _ _ _ _ B C). unfold bind.
  destruct (close (PInt 1) s1) as [[[]|e'|] s2]; reflexivity.
Qed.

(** An exception that is not an [Exception] is not caught. *)
Lemma wait_for_passes (A : Type) (future : option pyval -> M A)
    (timeout : pyval) (e : exn) (s s1 : node) :
  future (Some timeout) s = (Raise e, s1) ->
  is_Exception e = false ->
  wait_for future timeout s = (Raise e, s1).
Proof.
  intros F C. unfold wait_for.
  apply try_except_passes; [|exact C].
  unfold bind, asyncio_wait_for. now rewrite F.
Qed.

Lemma await_not_running (s : node) :
  String.eqb (status s) "running" = false ->
  await_node s =
  if truthy (get_death_timeout s)
  then wait_for ServerNode_start (get_death_timeout s) s
  else ServerNode_start None s.
Proof. intros E. unfold await_node. now rewrite E. Qed.

(** C7: awaiting a node whose status is running returns at once, with
    the node as it was: the registry, the pool and everything else in the
    world are untouched. *)
Theorem await_running_is_noop (s : node) :
  status s = "running" ->
  await_node s = (Ok AwNone, s).
Proof. intros E. unfold await_node. rewrite E. reflexivity. Qed.

(** C8, as the code has it: a node whose status is closing or closed is
    started like any node that is not running.  The pool's start is
    awaited (under the death timeout when there is one), and when it
    completes the await returns normally, the status left as it was; no
    error is raised on account of the status. *)
Theorem await_closed_starts (s : node) (w : world) :
  status s = "closing" \/ status s = "closed" ->
  pool_start (if truthy (get_death_timeout s)
              then Some (get_death_timeout s) else None) (wd s)
  = (Finished, w) ->
  await_node s =
  (Ok (if truthy (get_death_timeout s) then AwNone else AwSelf), set_wd w s).
Proof.
  intros St P.
  rewrite await_not_running by (destruct St as [-> | ->]; reflexivity).
  destruct (truthy (get_death_timeout s)).
  - unfold wait_for. apply try_except_ok.
    unfold bind, asyncio_wait_for, ServerNode_start, bind, Node_start.
    now rewrite P.
  - unfold ServerNode_start, bind, Node_start. now rewrite P.
Qed.

(** C3, as the code has it: when the node has a death timeout and its
    start is still pending at the deadline, the node is closed with
    timeout 1 and, if that close returns, the timeout error naming the
    node type and the timeout value is raised.  An exception raised by
    the close is not suppressed: it is what the await raises. *)
Theorem startup_timeout (s : node) (w : world) :
  String.eqb (status s) "running" = false ->
  truthy (get_death_timeout s) = true ->
  pool_start (Some (get_death_timeout s)) (wd s) = (Pending, w) ->
  await_node s =
  match close (PInt 1) (set_wd w s) with
  | (Ok _, s2) =>
      (Raise (Exn TimeoutError
                [PStr (type_name s2 ++ " failed to start in "
                         ++ py_str (get_death_timeout s) ++ " seconds")%string]),
       s2)
  | (Raise e', s2) => (Raise e', s2)
  | (Hang, s2) => (Hang, s2)
  end.
Proof.
  intros St T P. rewrite await_not_running by exact St. rewrite T.
  apply wait_for_handler with (e := Exn AsyncTimeoutError []); [|reflexivity].
  right. split; [|reflexivity].
  unfold ServerNode_start, bind, Node_start. now rewrite P.
Qed.

(** C10, as the code has it: when the node has a death timeout and its
    start raises an exception deriving from Exception, whatever it is,
    the node is closed with timeout 1 and, if that close returns, the
    timeout error is raised in place of the exception of the start; if
    the close raises, its exception is raised instead.  Either way the
    exception of the start is gone. *)
Theorem startup_failure_masked (s : node) (w : world) (e : exn) :
  String.eqb (status s) "running" = false ->
  truthy (get_death_timeout s) = true ->
  pool_start (Some (get_death_timeout s)) (wd s) = (Failed e, w) ->
  is_Exception e = true ->
  await_node s =
  match close (PInt 1) (set_wd w s) with
  | (Ok _, s2) =>
      (Raise (Exn TimeoutError
                [PStr (type_name s2 ++ " failed to start in "
                         ++ py_str (get_death_timeout s) ++ " seconds")%string]),
       s2)
  | (Raise e', s2) => (Raise e', s2)
  | (Hang, s2) => (Hang, s2)
  end.
Proof.
  intros St T P C. rewrite await_not_running by exact St. rewrite T.
  apply wait_for_handler with (e := e); [|exact C].
  left. unfold ServerNode_start, bind, Node_start. now rewrite P.
Qed.

(** X13: with a death timeout, an exception of the start that does not
    derive from Exception goes through the wrapper as it is: the node is
    not closed and no timeout error is raised. *)
Lemma startup_base_exception (s : node) (w : world) (e : exn) :
  String.eqb (status s) "running" = false ->
  truthy (get_death_timeout s) = true ->
  pool_start (Some (get_death_timeout s)) (wd s) = (Failed e, w) ->
  is_Exception e = false ->
  await_node s = (Raise e, set_wd w s).
Proof.
  intros St T P C. rewrite await_not_running by exact St. rewrite T.
  apply wait_for_passes; [|exact C].
  unfold ServerNode_start, bind, Node_start. now rewrite P.
Qed.

(** X14: without a death timeout (the attribute missing, None or 0)
    nothing wraps the start: the exception it raises is what the await
    raises, and the node is not closed. *)
Lemma startup_failure_plain (s : node) (w : world) (e : exn) :
  String.eqb (status s) "running" = false ->
  truthy (get_death_timeout s) = false ->
  pool_start None (wd s) = (Failed e, w) ->
  await_node s = (Raise e, set_wd w s).
Proof.
  intros St T P. rewrite await_not_running by exact St. rewrite T.
  unfold ServerNode_start, bind, Node_start. now rewrite P.
Qed.

End AwaitProperties.

Lemma await_running_is_noop_witness :
  let s := Demo.node0 "running" (Some (PInt 3)) Demo.specs_bad_first Pending in
  status s = "running" /\
  @await_node Demo.builtins Demo.collaborators Demo.closing_ok s = (Ok AwNone, s).
Proof.
  intros s. split; [reflexivity|].
  apply (@await_running_is_noop Demo.builtins Demo.collaborators
           Demo.closing_ok s).
  reflexivity.
Defined.

Lemma await_closed_starts_witness :
  let s := Demo.node0 "closed" None [] Finished in
  let w := Demo.mk_dworld [8787] [] [] [] 0 1 Finished in
  (status s = "closing" \/ status s = "closed") /\
  @await_node Demo.builtins Demo.collaborators Demo.closing_ok s
  = (Ok AwSelf, @set_wd Demo.collaborators w s).
Proof.
  intros s w. split; [right; reflexivity|].
  apply (@await_closed_starts Demo.builtins Demo.collaborators
           Demo.closing_ok s w); [right; reflexivity | reflexivity].
Defined.

(** C8 as stated fails: a closed node and a closing node are both
    started when awaited; the pool's start runs once, the await returns
    the node, and no exception is raised. *)
Lemma await_closed_raises_nothing :
  let r1 := @await_node Demo.builtins Demo.collaborators Demo.closing_ok
              (Demo.node0 "closed" None [] Finished) in
  let r2 := @await_node Demo.builtins Demo.collaborators Demo.closing_ok
              (Demo.node0 "closing" None [] Finished) in
  fst r1 = Ok AwSelf /\ Demo.pool_calls (wd (snd r1)) = 1%nat /\
  fst r2 = Ok AwSelf /\ Demo.pool_calls (wd (snd r2)) = 1%nat.
Proof. repeat split. Qed.

Lemma startup_timeout_witness :
  let s := Demo.node0 "created" (Some (PInt 3)) [] Pending in
  String.eqb (status s) "running" = false /\
  truthy (get_death_timeout s) = true /\
  fst (@await_node Demo.builtins Demo.collaborators Demo.closing_ok s)
  = Raise (Exn TimeoutError [PStr "Worker failed to start in 3 seconds"]).
Proof.
  intros s. split; [reflexivity|]. split; [reflexivity|].
  rewrite (@startup_timeout Demo.builtins Demo.collaborators Demo.closing_ok s
             (Demo.mk_dworld [8787] [] [] [] 0 1 Pending))
    by reflexivity.
  reflexivity.
Defined.

(** C3 as stated fails: the start is pending at the deadline, the close
    raises, and the await raises the exception of the close, not the
    timeout error. *)
Lemma close_failure_not_suppressed :
  let r := @await_node Demo.builtins Demo.collaborators Demo.closing_raises
             (Demo.node0 "created" (Some (PInt 3)) [] Pending) in
  fst r = Raise Demo.comm_closed /\
  fst r <> Raise (Exn TimeoutError [PStr "Worker failed to start in 3 seconds"]).
Proof. split; [reflexivity | discriminate]. Qed.

Lemma startup_failure_masked_witness :
  let s := Demo.node0 "created" (Some (PInt 3)) [] (Failed Demo.pool_error) in
  String.eqb (status s) "running" = false /\
  truthy (get_death_timeout s) = true /\
  is_Exception Demo.pool_error = true /\
  fst (@await_node Demo.builtins Demo.collaborators Demo.closing_ok s)
  = Raise (Exn TimeoutError [PStr "Worker failed to start in 3 seconds"]).
Proof.
  intros s. split; [reflexivity|]. split; [reflexivity|].
  split; [reflexivity|].
  rewrite (@startup_failure_masked Demo.builtins Demo.collaborators
             Demo.closing_ok s
             (Demo.mk_dworld [8787] [] [] [] 0 1 (Failed Demo.pool_error))
             Demo.pool_error)
    by reflexivity.
  reflexivity.
Defined.

(** C10 as stated fails: the pool's start raises, the close raises too,
    and the await raises the exception of the close; no timeout error is
    raised. *)
Lemma failed_start_then_failed_close :
  let r := @await_node Demo.builtins Demo.collaborators Demo.closing_raises
             (Demo.node0 "created" (Some (PInt 3)) []
                         (Failed Demo.pool_error)) in
  fst r = Raise Demo.comm_closed /\
  fst r <> Raise (Exn TimeoutError [PStr "Worker failed to start in 3 seconds"]).
Proof. split; [reflexivity | discriminate]. Qed.

(** ** [start_http_server] *)

Section DashboardProperties.
Context `{Builtins} `{Collaborators}.


(** A failed bind is retried once, on port 0 of the same host; what the
    retry raises is raised. *)
Lemma bind_server_retry (server : service) (a : http_address) (s : node)
    (e : exn) (w1 : world) :
  http_listen server a (wd s) = (Some e, w1) ->
  is_Exception e = true ->
  bind_server server a s =
  match http_listen server (mk_address (address a) (PInt 0)) w1 with
  | (None, w2) => (Ok true, set_wd w2 s)
  | (Some e2, w2) => (Raise e2, set_wd w2 s)
  end.
Proof.
  intros L C. unfold bind_server.
  rewrite (try_except_caught _ _ s (set_wd w1 s) e); [|
    unfold bind, call_; now rewrite L | exact C].
  unfold bind, call_, merge_port0. cbn [wd set_wd].
  destruct (http_listen server (mk_address (address a) (PInt 0)) w1)
    as [[e2|] w2]; reflexivity.
Qed.

(** X21: when the bind fails and the retry on port 0 fails too, the
    exception of the retry leaves [start_http_server]; there is no
    second retry, the server is not registered as dashboard, its port is
    not set and no warning is issued. *)
Lemma bind_dashboard_retry_fails (server : service) (a : http_address)
    (da : pyval) (s : node) (e e2 : exn) (w1 w2 : world) :
  http_listen server a (wd s) = (Some e, w1) ->
  is_Exception e = true ->
  http_listen server (mk_address (address a) (PInt 0)) w1 = (Some e2, w2) ->
  bind_dashboard server a da s = (Raise e2, set_wd w2 s).
Proof.
  intros L C L2. unfold bind_dashboard.
  apply bind_raise. rewrite (bind_server_retry _ _ _ _ _ L C). now rewrite L2.
Qed.


End DashboardProperties.


(** An address that was not asked for: the default port is taken, the
    server moves to a free port, and no warning is issued. *)
Example dashboard_silent_fallback :
  let r := @start_http_server Demo.builtins Demo.collaborators
             PNone (PInt 0) (PInt 8787) None
             (Demo.node0 "running" None [] Finished) in
  fst r = Ok tt /\
  Demo.dport 0%nat (wd (snd r)) = PInt 49152 /\
  warned (snd r) = [].
Proof. repeat split. Qed.

(** * Further properties *)

(** ** [get_logs] with a bound *)

Section GetLogsShape.
Variable format : Logs.log_record -> string.

#[local] Abbreviation entry := (Logs.entry format).
#[local] Abbreviation get_logs := (Logs.get_logs format).

(** X2: a bound [n] within the size of the buffer gives [n] entries: the
    oldest one first, then the [n - 1] newest ones from the newest
    backwards. *)
Theorem get_logs_oldest_then_newest (a : Logs.log_record)
    (deque : list Logs.log_record) (n : Z) :
  1 <= n <= Z.of_nat (length (a :: deque)) ->
  get_logs (a :: deque) (Some n) =
  inr (entry a ::
       map entry (firstn (Z.to_nat n - 1) (rev (a :: deque)))).
Proof.
  intros Hn. rewrite get_logs_some by lia.
  now rewrite Z.min_l by lia.
Qed.

(** X3: a bound [n] that is the size of the buffer or more gives every
    entry once: the oldest one first, then all the others from the
    newest backwards. *)
Theorem get_logs_whole_buffer (a : Logs.log_record)
    (deque : list Logs.log_record) (n : Z) :
  Z.of_nat (length (a :: deque)) <= n ->
  get_logs (a :: deque) (Some n) = inr (entry a :: map entry (rev deque)).
Proof.
  intros Hn. rewrite get_logs_some by (cbn [length] in Hn; lia).
  rewrite Z.min_r by lia.
  replace (Z.to_nat (Z.of_nat (length (a :: deque))) - 1)%nat
    with (length (rev deque) + 0)%nat
    by (rewrite length_rev; cbn [length]; lia).
  cbn [rev]. rewrite firstn_app_2. cbn [firstn]. now rewrite app_nil_r.
Qed.

End GetLogsShape.

Lemma get_logs_oldest_then_newest_witness :
  1 <= 2 <= Z.of_nat (length [Demo.r1; Demo.r2; Demo.r3]) /\
  Logs.get_logs Logs.message [Demo.r1; Demo.r2; Demo.r3] (Some 2)
  = inr [("INFO", "first"); ("ERROR", "third")].
Proof.
  assert (H : 1 <= 2 <= Z.of_nat (length [Demo.r1; Demo.r2; Demo.r3]))
    by (cbn; lia).
  split; [exact H|].
  rewrite (get_logs_oldest_then_newest Logs.message Demo.r1
             [Demo.r2; Demo.r3] 2 H).
  reflexivity.
Defined.

Lemma get_logs_whole_buffer_witness :
  Z.of_nat (length [Demo.r1; Demo.r2; Demo.r3]) <= 10 /\
  Logs.get_logs Logs.message [Demo.r1; Demo.r2; Demo.r3] (Some 10)
  = inr [("INFO", "first"); ("ERROR", "third"); ("WARNING", "second")].
Proof.
  assert (H : Z.of_nat (length [Demo.r1; Demo.r2; Demo.r3]) <= 10)
    by (cbn; lia).
  split; [exact H|].
  rewrite (get_logs_whole_buffer Logs.message Demo.r1
             [Demo.r2; Demo.r3] 10 H).
  reflexivity.
Defined.

(** ** String port-specs *)

Lemma py_split_none (sep : ascii) (s : string) :
  count_char sep s = 0%nat -> py_split sep s = [s].
Proof.
  induction s as [|c s IH]; intros Hc; [reflexivity|].
  cbn [py_split count_char] in *.
  destruct (Ascii.eqb c sep); [discriminate Hc|].
  now rewrite IH.
Qed.

Lemma py_split_at (sep : ascii) (h p : string) :
  count_char sep h = 0%nat ->
  py_split sep (h ++ String sep p) = h :: py_split sep p.
Proof.
  induction h as [|c h IH]; intros Hc.
  - cbn. now rewrite Ascii.eqb_refl.
  - cbn [py_split count_char append] in *.
    destruct (Ascii.eqb c sep); [discriminate Hc|].
    now rewrite IH.
Qed.

Section StringPortSpecs.
Context `{Builtins}.

(** X4: a string port-spec without a colon names a host, not a port:
    the service listens on that host and on port 0, whatever the default
    host is.  The string 8080 is a host. *)
Theorem resolve_string_without_colon (name s : string) (d : pyval) :
  count_char ":" s = 0%nat ->
  resolve (KPair name (PStr s)) d = inr (PStr s, PInt 0).
Proof.
  intros Hc. unfold resolve, resolve_port. cbn [unpack_key snd split_port].
  now rewrite (py_split_none _ _ Hc).
Qed.

(** X5: a string port-spec host:port, neither part holding a colon,
    resolves to that host and to int(port); when int rejects the port
    part, its exception is the outcome. *)
Theorem resolve_host_colon_port (name h p : string) (d : pyval) :
  count_char ":" h = 0%nat ->
  count_char ":" p = 0%nat ->
  resolve (KPair name (PStr (h ++ ":" ++ p))) d =
  match py_int (PStr p) with
  | inr z => inr (PStr h, PInt z)
  | inl e => inl e
  end.
Proof.
  intros Hh Hp. unfold resolve, resolve_port. cbn [unpack_key snd split_port].
  change (h ++ ":" ++ p)%string with (h ++ String ":" p)%string.
  rewrite (py_split_at _ _ _ Hh), (py_split_none _ _ Hp). cbn [map].
  now destruct (py_int (PStr p)).
Qed.

(** X6: a string port-spec holding two colons or more, an IPv6 address
    with its port for one, is not resolved: the outcome is a ValueError
    that carries the pieces between the colons. *)
Theorem resolve_string_two_colons (name s : string) (d : pyval) :
  (2 <= count_char ":" s)%nat ->
  resolve (KPair name (PStr s)) d =
  inl (Exn ValueError [PList (map PStr (py_split ":" s))]).
Proof.
  intros Hc. unfold resolve. cbn [unpack_key snd].
  rewrite resolve_port_malformed; [reflexivity|].
  rewrite malformed_string. now apply Nat.leb_le.
Qed.

End StringPortSpecs.

Lemma resolve_string_without_colon_witness :
  count_char ":" "8080" = 0%nat /\
  @resolve Demo.builtins (KPair "bokeh" (PStr "8080")) (PStr "0.0.0.0")
  = inr (PStr "8080", PInt 0).
Proof.
  split; [reflexivity|].
  apply (@resolve_string_without_colon Demo.builtins). reflexivity.
Defined.

Lemma resolve_host_colon_port_witness :
  count_char ":" "localhost" = 0%nat /\
  count_char ":" "8787" = 0%nat /\
  @resolve Demo.builtins (KPair "bokeh" (PStr "localhost:8787")) PNone
  = inr (PStr "localhost", PInt 8787).
Proof.
  split; [reflexivity|]. split; [reflexivity|].
  exact (@resolve_host_colon_port Demo.builtins "bokeh" "localhost" "8787"
           PNone eq_refl eq_refl).
Defined.

Lemma resolve_string_two_colons_witness :
  (2 <= count_char ":" "[::1]:8787")%nat /\
  @resolve Demo.builtins (KPair "bokeh" (PStr "[::1]:8787")) PNone
  = inl (Exn ValueError [PList [PStr "["; PStr ""; PStr "1]"; PStr "8787"]]).
Proof.
  assert (H : (2 <= count_char ":" "[::1]:8787")%nat) by (cbn; lia).
  split; [exact H|].
  exact (@resolve_string_two_colons Demo.builtins "bokeh" "[::1]:8787" PNone H).
Defined.

(** ** More on [start_services] *)

Lemma dict_set_twice {V : Type} (k : string) (v1 v2 : V)
    (d : list (string * V)) :
  dict_set k v2 (dict_set k v1 d) = dict_set k v2 d.
Proof.
  induction d as [|[k' v'] d IH]; cbn [dict_set].
  - now rewrite String.eqb_refl.
  - destruct (String.eqb k' k) eqn:E; cbn [dict_set].
    + now rewrite String.eqb_refl.
    + now rewrite E, IH.
Qed.


Section StartInvariants.
Context `{Builtins} `{Collaborators}.



Lemma grows_set_wd (s : node) (w : world) : grows s (set_wd w s).
Proof.
  unfold grows. cbn. repeat split; trivial.
  exists []. now rewrite app_nil_r.
Qed.




(** X8: a port-spec whose port part [int] rejects stops
    [start_services] with the exception of [int]: the services declared
    before it have been processed, and neither it nor any service
    declared after it is attempted. *)
Theorem unparsable_port_aborts (d : pyval)
    (pre post : list (service_key * descriptor)) (name : string)
    (port elem0 elem1 : pyval) (v : descriptor) (e : exn) (s s1 : node) :
  service_specs s = pre ++ (KPair name port, v) :: post ->
  split_port port = PList [elem0; elem1] \/
  split_port port = PTuple [elem0; elem1] ->
  py_int elem1 = inl e ->
  start_each (clean_default d) pre s = (Ok tt, s1) ->
  start_services d s = (Raise e, s1).
Proof.
  intros Hspecs Hshape Hint Hpre. unfold start_services.
  rewrite Hspecs, start_each_app, Hpre. cbn [start_each]. unfold bind.
  rewrite (start_service_unresolved _ _ _ e); [reflexivity|].
  cbn [unpack_key snd]. unfold resolve_port.
  destruct Hshape as [-> | ->]; now rewrite Hint.
Qed.

(** X9: when two declared services have the same name and both start,
    the registry ends with the handle of the later one under that name,
    as if the earlier one had never been registered; the earlier object
    stays constructed and listening. *)
Theorem same_name_last_wins (d : pyval) (k1 k2 : service_key)
    (v1 v2 : descriptor) (rest : list (service_key * descriptor))
    (ip1 p1 ip2 p2 : pyval) (h1 h2 : service) (w1 w2 w3 w4 : world)
    (s : node) :
  let d' := clean_default d in
  let s' :=
    set_services (dict_set (fst (unpack_key k1)) h2 (services s))
                 (set_wd w4 s) in
  service_specs s = (k1, v1) :: (k2, v2) :: rest ->
  fst (unpack_key k2) = fst (unpack_key k1) ->
  resolve_port (snd (unpack_key k1)) = inr (ip1, p1) ->
  construct (fst (unpack_descriptor v1)) (snd (unpack_descriptor v1)) (wd s)
  = (inr h1, w1) ->
  listen h1 (listen_host ip1 d', p1) w1 = (None, w2) ->
  resolve_port (snd (unpack_key k2)) = inr (ip2, p2) ->
  construct (fst (unpack_descriptor v2)) (snd (unpack_descriptor v2)) w2
  = (inr h2, w3) ->
  listen h2 (listen_host ip2 d', p2) w3 = (None, w4) ->
  start_services d s = start_each d' rest s' /\
  dict_get (fst (unpack_key k1)) (services s') = Some h2.
Proof.
  intros d' s' Hspecs Hname R1 C1 L1 R2 C2 L2.
  split; [|unfold s'; cbn [services set_services]; apply dict_get_set].
  unfold start_services. rewrite Hspecs. fold d'. cbn [start_each].
  rewrite (bind_ok _ _ s
             (set_services (dict_set (fst (unpack_key k1)) h1 (services s))
                           (set_wd w2 s)) tt).
  2:{ apply start_service_ok with (listen_ip := ip1) (port := p1);
        [exact R1|].
      now apply launch_ok with (w0 := w1). }
  rewrite (bind_ok _ _ _ s' tt); [reflexivity|].
  apply start_service_ok with (listen_ip := ip2) (port := p2); [exact R2|].
  rewrite (launch_ok _ _ _ _ _ _ h2 w3 w4); [| exact C2 | exact L2].
  unfold s'. rewrite Hname. cbn [services set_services set_wd].
  now rewrite dict_set_twice.
Qed.

(** X10: an exception that does not derive from Exception, raised by
    the constructor of a service or by its [listen], is not turned into
    a warning: it leaves [start_services], and the services declared
    after that one are not attempted. *)
Theorem interrupted_service_aborts (d : pyval)
    (pre post : list (service_key * descriptor)) (k : service_key)
    (v : descriptor) (ip p : pyval) (e : exn) (w : world) (s s1 : node) :
  let d' := clean_default d in
  service_specs s = pre ++ (k, v) :: post ->
  start_each d' pre s = (Ok tt, s1) ->
  resolve_port (snd (unpack_key k)) = inr (ip, p) ->
  (construct (fst (unpack_descriptor v)) (snd (unpack_descriptor v)) (wd s1)
   = (inl e, w)
   \/ exists h w0,
       construct (fst (unpack_descriptor v)) (snd (unpack_descriptor v))
                 (wd s1) = (inr h, w0) /\
       listen h (listen_host ip d', p) w0 = (Some e, w)) ->
  is_Exception e = false ->
  start_services d s = (Raise e, set_wd w s1).
Proof.
  intros d' Hspecs Hpre R F C. unfold start_services. fold d'.
  rewrite Hspecs, start_each_app, Hpre. cbn [start_each].
  apply bind_raise. unfold start_service. cbn [fst snd].
  destruct (unpack_key k) as [name ps]. cbn [fst snd] in *.
  destruct (unpack_descriptor v) as [fac kw]. cbn [fst snd] in *.
  unfold bind at 1. unfold lift. rewrite R.
  apply try_except_passes; [|exact C].
  destruct F as [F|(h & w0 & F & F')].
  - now apply launch_construct_raises.
  - now apply launch_listen_raises with (h := h) (w0 := w0).
Qed.

End StartInvariants.

Lemma unparsable_port_aborts_witness :
  let s := Demo.node0 "created" None Cases.specs_unparsable Finished in
  let r := @start_services Demo.builtins Demo.collaborators (PStr "0.0.0.0") s in
  fst r = Raise (Exn ValueError
                   [PStr "invalid literal for int() with base 10: 'http'"]) /\
  dict_get "b" (services (snd r)) = Some 0%nat /\
  dict_get "d" (services (snd r)) = None.
Proof.
  intros s r.
  pose (s1 := snd (@start_each Demo.builtins Demo.collaborators (PStr "")
                     [(KPair "b" (PInt 9000), Demo.good)] s)).
  assert (E : r = (Raise (Exn ValueError
                     [PStr "invalid literal for int() with base 10: 'http'"]),
                   s1)).
  { apply (@unparsable_port_aborts Demo.builtins Demo.collaborators
             (PStr "0.0.0.0") [(KPair "b" (PInt 9000), Demo.good)]
             [(KName "d", Demo.good)] "c" (PStr "localhost:http")
             (PStr "localhost") (PStr "http") Demo.good);
      [reflexivity | left; reflexivity | reflexivity | reflexivity]. }
  rewrite E. repeat split.
Defined.

Lemma same_name_last_wins_witness :
  let s := Demo.node0 "created" None Cases.specs_twice Finished in
  let r := @start_services Demo.builtins Demo.collaborators (PStr "") s in
  fst r = Ok tt /\
  services (snd r) = [("a", 1%nat)] /\
  Demo.socks (wd (snd r)) = [(1%nat, 9000); (0%nat, 8000)].
Proof.
  intros s r.
  destruct (@same_name_last_wins Demo.builtins Demo.collaborators (PStr "")
              (KPair "a" (PInt 8000)) (KPair "a" (PInt 9000))
              Demo.good Demo.good [] PNone (PInt 8000) PNone (PInt 9000)
              0%nat 1%nat
              (Demo.mk_dworld [8787] [] [] [] 1 0 Finished)
              (Demo.mk_dworld [8787] [(0%nat, 8000)] [(0%nat, PInt 8000)] []
                              1 0 Finished)
              (Demo.mk_dworld [8787] [(0%nat, 8000)] [(0%nat, PInt 8000)] []
                              2 0 Finished)
              (Demo.mk_dworld [8787] [(1%nat, 9000); (0%nat, 8000)]
                              [(1%nat, PInt 9000); (0%nat, PInt 8000)] []
                              2 0 Finished)
              s) as [E _]; try reflexivity.
  unfold r. rewrite E. repeat split.
Defined.

Lemma interrupted_service_aborts_witness :
  let s := Faulty.node_of true
             [(KName "a", Faulty.bad true); (KName "b", Faulty.good true)] [] in
  let r := @start_services Demo.builtins (Faulty.collaborators true)
             (PStr "") s in
  fst r = Raise Faulty.interrupt /\
  services (snd r) = [] /\
  warned (snd r) = [].
Proof.
  intros s r.
  assert (E : r = (Raise Faulty.interrupt,
                   @set_wd (Faulty.collaborators true)
                           (Demo.world0 Finished) s)).
  { apply (@interrupted_service_aborts Demo.builtins
             (Faulty.collaborators true) (PStr "") []
             [(KName "b", Faulty.good true)] (KName "a") (Faulty.bad true)
             PNone (PInt 0));
      [reflexivity | reflexivity | reflexivity | left; reflexivity
      | reflexivity]. }
  rewrite E. repeat split.
Defined.

(** ** More on [stop_services] and [service_ports] *)

Section StopAndPorts.
Context `{Builtins} `{Collaborators}.

Lemma stop_each_app (pre post : list (string * service)) (s : node) :
  stop_each (pre ++ post) s =
  match stop_each pre s with
  | (Ok _, s1) => stop_each post s1
  | r => r
  end.
Proof.
  revert s. induction pre as [|[k h] pre IH]; intros s.
  - reflexivity.
  - cbn [app stop_each]. unfold bind.
    destruct (call_ (stop h) s) as [[[]|e|] s1]; try reflexivity.
    apply IH.
Qed.

(** X11: [stop_services] gives up at the first handle whose [stop()]
    raises: the exception leaves [stop_services], the world is as that
    failing [stop()] left it, so that no handle registered after it is
    stopped, and the registry is unchanged. *)
Theorem stop_services_aborts (pre post : list (string * service))
    (k : string) (h : service) (e : exn) (w : world) (s s1 : node) :
  services s = pre ++ (k, h) :: post ->
  stop_each pre s = (Ok tt, s1) ->
  stop h (wd s1) = (Some e, w) ->
  stop_services s = (Raise e, set_wd w s).
Proof.
  intros Hreg Hpre Hstop. unfold stop_services.
  rewrite Hreg, stop_each_app, Hpre. cbn [stop_each].
  unfold bind, call_. rewrite Hstop.
  pose proof (stop_each_frame pre s) as F. rewrite Hpre in F. cbn [snd] in F.
  rewrite F. reflexivity.
Qed.

(** [service_ports] has the keys of the registry, each with the port
    attribute of its handle as it is now. *)
Lemma service_ports_get (k : string) (s : node) :
  dict_get k (service_ports s) =
  option_map (fun h => port h (wd s)) (dict_get k (services s)).
Proof.
  unfold service_ports.
  induction (services s) as [|[k' h] l IH]; cbn; [reflexivity|].
  destruct (String.eqb k' k); [reflexivity | exact IH].
Qed.

(** The node after lines 236-246, from the node [s1] the bind left. *)
Lemma bind_dashboard_bound (server : service) (a : http_address)
    (dashboard_address : pyval) (s s1 : node) (changed_port : bool)
    (host p : pyval) :
  bind_server server a s = (Ok changed_port, s1) ->
  get_tcp_server_address server (wd s1) = inr (host, p) ->
  bind_dashboard server a dashboard_address s =
  (Ok tt,
   set_warned
     (warned s1 ++
        if changed_port && truthy dashboard_address
        then [port_warning (hport a) p] else [])
     (set_services (dict_set "dashboard" server (services s1))
        (set_wd (set_port server p (wd s1)) s1))).
Proof.
  intros B A. unfold bind_dashboard.
  rewrite (bind_ok _ _ _ _ _ B).
  unfold bind at 1. unfold lift. rewrite A.
  unfold bind at 1. unfold bind at 1.
  cbn [snd wd set_wd services set_services].
  destruct (changed_port && truthy dashboard_address).
  - unfold warn. cbn [wd set_wd set_services warned].
    rewrite port_set_port. destruct s1; reflexivity.
  - unfold ret. rewrite app_nil_r. destruct s1; reflexivity.
Qed.

(** X12: once the dashboard server is bound, at the first attempt or at
    the retry, and its socket gives its port, [start_http_server] goes
    on to the end and [service_ports] reports that port, the one read
    from the socket, under the key dashboard. *)
Theorem dashboard_port_reported (server : service) (a : http_address)
    (dashboard_address : pyval) (s s1 : node) (changed_port : bool)
    (host p : pyval) :
  bind_server server a s = (Ok changed_port, s1) ->
  get_tcp_server_address server (wd s1) = inr (host, p) ->
  let r := bind_dashboard server a dashboard_address s in
  fst r = Ok tt /\ dict_get "dashboard" (service_ports (snd r)) = Some p.
Proof.
  intros B A r. unfold r.
  rewrite (bind_dashboard_bound _ _ _ _ _ _ _ _ B A). cbn [fst snd].
  split; [reflexivity|].
  rewrite service_ports_get. cbn [services set_warned set_services wd set_wd].
  rewrite dict_get_set. cbn [option_map]. now rewrite port_set_port.
Qed.

End StopAndPorts.

Lemma stop_services_aborts_witness :
  let s := Faulty.node_of true [] [("x", 1%nat); ("y", 0%nat); ("z", 2%nat)] in
  let r := @stop_services (Faulty.collaborators true) s in
  fst r = Raise Faulty.stop_error /\
  Demo.stopped (wd (snd r)) = [1%nat] /\
  services (snd r) = [("x", 1%nat); ("y", 0%nat); ("z", 2%nat)].
Proof.
  intros s r.
  pose (s1 := snd (@stop_each (Faulty.collaborators true) [("x", 1%nat)] s)).
  assert (E : r = (Raise Faulty.stop_error,
                   @set_wd (Faulty.collaborators true) (wd s1) s)).
  { apply (@stop_services_aborts (Faulty.collaborators true)
             [("x", 1%nat)] [("z", 2%nat)] "y" 0%nat Faulty.stop_error
             (wd s1) s s1); reflexivity. }
  rewrite E. repeat split.
Defined.

Lemma dashboard_port_reported_witness :
  let s := snd (@prepare Demo.collaborators PNone (PInt 8787) (PInt 0) None
                  (Demo.node0 "running" None [] Finished)) in
  let a := mk_address (PStr "tcp://127.0.0.1:0") (PInt 8787) in
  let r := @bind_dashboard Demo.builtins Demo.collaborators 0%nat a
             (PInt 8787) s in
  fst r = Ok tt /\
  dict_get "dashboard" (@service_ports Demo.collaborators (snd r))
  = Some (PInt 49152).
Proof.
  intros s a r.
  apply (@dashboard_port_reported Demo.builtins Demo.collaborators
           0%nat a (PInt 8787) s
           (snd (@bind_server Demo.collaborators 0%nat a s)) true (PStr ""));
    reflexivity.
Defined.

Lemma startup_base_exception_witness :
  let s := Demo.node0 "created" (Some (PInt 3)) [] (Failed Faulty.interrupt) in
  let r := @await_node Demo.builtins Demo.collaborators Demo.closing_ok s in
  fst r = Raise Faulty.interrupt /\ status (snd r) = "created".
Proof.
  intros s r.
  assert (E : r = (Raise Faulty.interrupt,
                   @set_wd Demo.collaborators
                     (Demo.mk_dworld [8787] [] [] [] 0 1
                                     (Failed Faulty.interrupt)) s)).
  { apply (@startup_base_exception Demo.builtins Demo.collaborators
             Demo.closing_ok s); reflexivity. }
  rewrite E. split; reflexivity.
Defined.

Lemma startup_failure_plain_witness :
  let s := Demo.node0 "created" (Some (PInt 0)) [] (Failed Demo.pool_error) in
  let r := @await_node Demo.builtins Demo.collaborators Demo.closing_ok s in
  fst r = Raise Demo.pool_error /\ status (snd r) = "created".
Proof.
  intros s r.
  assert (E : r = (Raise Demo.pool_error,
                   @set_wd Demo.collaborators
                     (Demo.mk_dworld [8787] [] [] [] 0 1
                                     (Failed Demo.pool_error)) s)).
  { apply (@startup_failure_plain Demo.builtins Demo.collaborators
             Demo.closing_ok s); reflexivity. }
  rewrite E. split; reflexivity.
Defined.

(** ** More on [__await__] and [__aenter__] *)

Section AwaitAgain.
Context `{Builtins} `{Collaborators} `{!Closing}.

(** A start that completes: the await returns, the node unchanged but
    for the world; the value is the node without a death timeout and
    None with one. *)
Lemma await_finished (s : node) (w : world) :
  String.eqb (status s) "running" = false ->
  pool_start (if truthy (get_death_timeout s)
              then Some (get_death_timeout s) else None) (wd s)
  = (Finished, w) ->
  await_node s =
  (Ok (if truthy (get_death_timeout s) then AwNone else AwSelf), set_wd w s).
Proof.
  intros St P. rewrite await_not_running by exact St.
  destruct (truthy (get_death_timeout s)).
  - unfold wait_for. apply try_except_ok.
    unfold bind, asyncio_wait_for, ServerNode_start, bind, Node_start.
    now rewrite P.
  - unfold ServerNode_start, bind, Node_start. now rewrite P.
Qed.

(** X15: [ServerNode.start] does not set the status, so a node that is
    awaited, started, and awaited again is started again: the pool's
    start runs a second time, on the world the first run left. *)
Theorem await_again_starts_again (s : node) (w1 w2 : world) :
  String.eqb (status s) "running" = false ->
  truthy (get_death_timeout s) = false ->
  pool_start None (wd s) = (Finished, w1) ->
  pool_start None w1 = (Finished, w2) ->
  bind await_node (fun _ => await_node) s = (Ok AwSelf, set_wd w2 s).
Proof.
  intros St T P1 P2.
  assert (A1 : await_node s = (Ok AwSelf, set_wd w1 s)).
  { rewrite (await_finished s w1 St); rewrite T; [reflexivity | exact P1]. }
  rewrite (bind_ok _ _ _ _ _ A1).
  rewrite (await_finished (set_wd w1 s) w2);
    change (get_death_timeout (set_wd w1 s)) with (get_death_timeout s);
    rewrite ?T; [reflexivity | exact St | exact P2].
Qed.

(** X16: entering the scope of a node that is not running starts it and
    gives the node, with a death timeout as without one, while
    [await node] gives None when there is a death timeout. *)
Theorem aenter_returns_node (s : node) (w : world) :
  String.eqb (status s) "running" = false ->
  pool_start (if truthy (get_death_timeout s)
              then Some (get_death_timeout s) else None) (wd s)
  = (Finished, w) ->
  aenter s = (Ok AwSelf, set_wd w s) /\
  (truthy (get_death_timeout s) = true ->
   await_node s = (Ok AwNone, set_wd w s)).
Proof.
  intros St P. pose proof (await_finished s w St P) as A. split.
  - unfold aenter. now rewrite (bind_ok _ _ _ _ _ A).
  - intros T. now rewrite A, T.
Qed.

End AwaitAgain.

Lemma await_again_starts_again_witness :
  let s := Demo.node0 "created" None [] Finished in
  let r := bind (@await_node Demo.builtins Demo.collaborators Demo.closing_ok)
             (fun _ => @await_node Demo.builtins Demo.collaborators
                         Demo.closing_ok) s in
  fst r = Ok AwSelf /\
  Demo.pool_calls (wd (snd r)) = 2%nat /\
  status (snd r) = "created".
Proof.
  intros s r.
  assert (E : r = (Ok AwSelf,
                   @set_wd Demo.collaborators
                     (Demo.mk_dworld [8787] [] [] [] 0 2 Finished) s)).
  { apply (@await_again_starts_again Demo.builtins Demo.collaborators
             Demo.closing_ok s
             (Demo.mk_dworld [8787] [] [] [] 0 1 Finished));
      reflexivity. }
  rewrite E. repeat split.
Defined.

Lemma aenter_returns_node_witness :
  let s := Demo.node0 "created" (Some (PInt 3)) [] Finished in
  fst (@aenter Demo.builtins Demo.collaborators Demo.closing_ok s) = Ok AwSelf /\
  fst (@await_node Demo.builtins Demo.collaborators Demo.closing_ok s)
  = Ok AwNone.
Proof.
  intros s.
  destruct (@aenter_returns_node Demo.builtins Demo.collaborators
              Demo.closing_ok s
              (Demo.mk_dworld [8787] [] [] [] 0 1 Finished))
    as [E A]; [reflexivity | reflexivity |].
  rewrite E, A by reflexivity. split; reflexivity.
Defined.

Lemma bind_dashboard_retry_fails_witness :
  let s := snd (@prepare Demo.collaborators PNone (PInt 8787) (PInt 0) None
                  Cases.node_crowded) in
  let a := mk_address (PStr "tcp://127.0.0.1:0") (PInt 8787) in
  let r := @bind_dashboard Demo.builtins Demo.collaborators 0%nat a
             (PInt 8787) s in
  fst r = Raise Demo.os_error /\
  services (snd r) = [] /\
  warned (snd r) = [] /\
  Demo.socks (wd (snd r)) = [].
Proof.
  intros s a r.
  assert (E : r = (Raise Demo.os_error, @set_wd Demo.collaborators (wd s) s)).
  { apply (@bind_dashboard_retry_fails Demo.builtins Demo.collaborators
             0%nat a (PInt 8787) s Demo.os_error Demo.os_error (wd s) (wd s));
      reflexivity. }
  rewrite E. repeat split.
Defined.

(** ** More on [start_http_server] *)

Section DashboardSetup.
Context `{Builtins} `{Collaborators}.

#[local] Abbreviation tls_cert_of w :=
  (config_get "distributed.scheduler.dashboard.tls.cert" w).
#[local] Abbreviation tls_key_of w :=
  (config_get "distributed.scheduler.dashboard.tls.key" w).
#[local] Abbreviation tls_ca_file_of w :=
  (config_get "distributed.scheduler.dashboard.tls.ca-file" w).

Lemma tls_options_configured (o1 o2 : option ssl_context) (s : node) :
  truthy (tls_cert_of (wd s)) = true ->
  tls_options o1 s = tls_options o2 s.
Proof. intros C. unfold tls_options. now rewrite C. Qed.

Lemma bind_ext {A B : Type} (m : M A) (k1 k2 : A -> M B) (s : node) :
  (forall a s', k1 a s' = k2 a s') -> bind m k1 s = bind m k2 s.
Proof.
  intros K. unfold bind. destruct (m s) as [[a|e|] s']; [apply K | | ];
    reflexivity.
Qed.

Lemma bind_cong {A B : Type} (m1 m2 : M A) (k : A -> M B) (s : node) :
  m1 s = m2 s -> bind m1 k s = bind m2 k s.
Proof. intros E. unfold bind. now rewrite E. Qed.

(** X17: when a dashboard certificate is configured, the [ssl_options]
    the caller passes play no part: [start_http_server] does the same
    with any two of them. *)
Theorem tls_ignores_caller_options (routes dashboard_address default_port : pyval)
    (o1 o2 : option ssl_context) (s : node) :
  (forall w, truthy (tls_cert_of w) = true) ->
  start_http_server routes dashboard_address default_port o1 s =
  start_http_server routes dashboard_address default_port o2 s.
Proof.
  intros C. unfold start_http_server. apply bind_cong.
  unfold prepare.
  apply bind_ext; intros app s1.
  apply bind_ext; intros _ s2.
  apply bind_cong. apply tls_options_configured, C.
Qed.

(** X18: when the configured certificate cannot be used, because the
    default context cannot be created or the certificate chain cannot be
    loaded, the exception leaves [start_http_server] before any server
    exists: [http_server] and the registry are what they were. *)
Theorem certificate_failure_aborts (routes dashboard_address default_port : pyval)
    (o : option ssl_context) (s : node) (app : application)
    (w1 w2 w3 : world) (e : exn) :
  let s' := set_http_application app (set_wd w3 s) in
  routing_application routes (wd s) = (inr app, w1) ->
  truthy (tls_cert_of w1) = true ->
  (create_default_context (tls_ca_file_of w1) w1 = (Some e, w3)
   \/ (create_default_context (tls_ca_file_of w1) w1 = (None, w2) /\
       load_cert_chain (tls_cert_of w1) (tls_key_of w1) w2 = (Some e, w3))) ->
  start_http_server routes dashboard_address default_port o s = (Raise e, s') /\
  http_server s' = http_server s /\
  services s' = services s.
Proof.
  intros s' R C F. split; [|split; reflexivity].
  unfold start_http_server. apply bind_raise.
  unfold prepare. unfold bind at 1. unfold call. rewrite R.
  unfold bind at 1. unfold bind at 1.
  unfold tls_options. cbn [wd set_wd set_http_application]. rewrite C.
  unfold bind at 1. unfold call_. cbn [wd set_wd set_http_application].
  destruct F as [F|[F1 F2]].
  - rewrite F. reflexivity.
  - rewrite F1. unfold bind at 1. cbn [wd set_wd]. rewrite F2. reflexivity.
Qed.

(** What [prepare] does when no certificate is configured and the
    collaborators before the address inference succeed. *)
Lemma prepare_plain (routes dashboard_address default_port : pyval)
    (o : option ssl_context) (s : node) (app : application)
    (server : service) (w1 w2 : world) (a : http_address) :
  routing_application routes (wd s) = (inr app, w1) ->
  truthy (tls_cert_of w1) = false ->
  http_server_new app o w1 = (inr server, w2) ->
  clean_dashboard_address (py_or dashboard_address default_port) = inr a ->
  prepare routes dashboard_address default_port o s =
  bind (infer_address a) (fun a' => ret (server, a'))
       (set_http_server server (set_http_application app (set_wd w2 s))).
Proof.
  intros R C N A. unfold prepare.
  unfold bind at 1. unfold call at 1. rewrite R.
  unfold bind at 1. unfold bind at 1.
  unfold tls_options. cbn [wd set_wd set_http_application]. rewrite C.
  unfold ret at 1. unfold bind at 1. unfold call.
  cbn [wd set_wd set_http_application]. rewrite N.
  unfold bind at 1. unfold bind at 1. unfold lift. rewrite A.
  reflexivity.
Qed.

(** X19: when the dashboard address names no host and the node has a
    listen address, the first one if it has several, the dashboard is
    bound on the host of that address, with the port that was asked
    for. *)
Theorem dashboard_host_from_node (routes dashboard_address default_port : pyval)
    (o : option ssl_context) (s : node) (app : application)
    (server : service) (w1 w2 : world) (a : http_address)
    (addr host : pyval) :
  let s2 := set_http_server server (set_http_application app (set_wd w2 s)) in
  routing_application routes (wd s) = (inr app, w1) ->
  truthy (tls_cert_of w1) = false ->
  http_server_new app o w1 = (inr server, w2) ->
  clean_dashboard_address (py_or dashboard_address default_port) = inr a ->
  truthy (address a) = false ->
  first_of (start_address s) = inr addr ->
  truthy addr = true ->
  get_address_host addr = inr host ->
  start_http_server routes dashboard_address default_port o s =
  bind_dashboard server (mk_address host (hport a)) dashboard_address s2.
Proof.
  intros s2 R C N A E F T G. unfold start_http_server.
  rewrite (bind_ok _ _ _ s2 (server, mk_address host (hport a)));
    [reflexivity|].
  rewrite (prepare_plain _ _ _ _ _ _ _ _ _ _ R C N A). fold s2.
  unfold bind, infer_address. rewrite E. cbn [negb].
  change (start_address s2) with (start_address s).
  now rewrite F, T, G.
Qed.

(** X20: when the host of the node's listen address cannot be worked
    out, a ValueError is swallowed and the dashboard is bound with the
    address left empty, while any other exception leaves
    [start_http_server] before the bind. *)
Theorem dashboard_host_error (routes dashboard_address default_port : pyval)
    (o : option ssl_context) (s : node) (app : application)
    (server : service) (w1 w2 : world) (a : http_address)
    (addr : pyval) (e : exn) :
  let s2 := set_http_server server (set_http_application app (set_wd w2 s)) in
  routing_application routes (wd s) = (inr app, w1) ->
  truthy (tls_cert_of w1) = false ->
  http_server_new app o w1 = (inr server, w2) ->
  clean_dashboard_address (py_or dashboard_address default_port) = inr a ->
  truthy (address a) = false ->
  first_of (start_address s) = inr addr ->
  truthy addr = true ->
  get_address_host addr = inl e ->
  start_http_server routes dashboard_address default_port o s =
  if is_ValueError e
  then bind_dashboard server a dashboard_address s2
  else (Raise e, s2).
Proof.
  intros s2 R C N A E F T G. unfold start_http_server.
  assert (I : infer_address a s2 =
              if is_ValueError e then (Ok a, s2) else (Raise e, s2)).
  { unfold infer_address. rewrite E. cbn [negb].
    change (start_address s2) with (start_address s).
    now rewrite F, T, G. }
  destruct (is_ValueError e).
  - rewrite (bind_ok _ _ _ s2 (server, a)); [reflexivity|].
    rewrite (prepare_plain _ _ _ _ _ _ _ _ _ _ R C N A). fold s2.
    unfold bind. now rewrite I.
  - apply bind_raise.
    rewrite (prepare_plain _ _ _ _ _ _ _ _ _ _ R C N A). fold s2.
    unfold bind. now rewrite I.
Qed.

End DashboardSetup.

Lemma tls_ignores_caller_options_witness :
  let s := Faulty.node_of true [] [] in
  let o := Some (mk_ssl PNone None true CERT_REQUIRED) in
  (forall w, truthy (@config_get (Faulty.collaborators true)
                       "distributed.scheduler.dashboard.tls.cert" w) = true) /\
  @start_http_server Demo.builtins (Faulty.collaborators true)
    PNone (PInt 9000) (PInt 0) o s
  = @start_http_server Demo.builtins (Faulty.collaborators true)
      PNone (PInt 9000) (PInt 0) None s.
Proof.
  intros s o.
  assert (C : forall w, truthy (@config_get (Faulty.collaborators true)
                "distributed.scheduler.dashboard.tls.cert" w) = true)
    by (intros w; reflexivity).
  split; [exact C|].
  exact (@tls_ignores_caller_options Demo.builtins (Faulty.collaborators true)
           PNone (PInt 9000) (PInt 0) o None s C).
Defined.

Lemma certificate_failure_aborts_witness :
  let s := Faulty.node_of false [] [] in
  let r := @start_http_server Demo.builtins (Faulty.collaborators false)
             PNone (PInt 9000) (PInt 0) None s in
  fst r = Raise Faulty.cert_error /\
  http_server (snd r) = None /\
  services (snd r) = [].
Proof.
  intros s r.
  destruct (@certificate_failure_aborts Demo.builtins
              (Faulty.collaborators false) PNone (PInt 9000) (PInt 0) None s
              PNone (wd s) (wd s) (wd s) Faulty.cert_error)
    as (E & Hs & Hr);
    [reflexivity | reflexivity | right; split; reflexivity |].
  unfold r. rewrite E. cbn [fst snd].
  split; [reflexivity|]. split; [exact Hs | exact Hr].
Defined.

Lemma dashboard_host_from_node_witness :
  let s := Cases.node_at
             (PList [PStr "tcp://10.0.0.1:8786"; PStr "tcp://10.0.0.2:8786"]) in
  let w := Demo.mk_dworld [8787] [] [] [] 1 0 Finished in
  @start_http_server Demo.builtins Demo.collaborators
    PNone (PInt 9000) (PInt 0) None s
  = @bind_dashboard Demo.builtins Demo.collaborators 0%nat
      (mk_address (PStr "tcp://10.0.0.1:8786") (PInt 9000)) (PInt 9000)
      (@set_http_server Demo.collaborators 0%nat
         (@set_http_application Demo.collaborators PNone
            (@set_wd Demo.collaborators w s))).
Proof.
  intros s w.
  apply (@dashboard_host_from_node Demo.builtins Demo.collaborators
           PNone (PInt 9000) (PInt 0) None s PNone 0%nat (wd s) w
           (mk_address (PStr "") (PInt 9000))
           (PStr "tcp://10.0.0.1:8786") (PStr "tcp://10.0.0.1:8786"));
    reflexivity.
Defined.

Lemma dashboard_host_error_witness :
  let s := Cases.node_at (PInt 5) in
  let r := @start_http_server Demo.builtins Demo.collaborators
             PNone (PInt 9000) (PInt 0) None s in
  fst r = Ok tt /\
  Demo.socks (wd (snd r)) = [(0%nat, 9000)] /\
  warned (snd r) = [].
Proof.
  intros s r.
  pose proof (@dashboard_host_error Demo.builtins Demo.collaborators
                PNone (PInt 9000) (PInt 0) None s PNone 0%nat (wd s)
                (Demo.mk_dworld [8787] [] [] [] 1 0 Finished)
                (mk_address (PStr "") (PInt 9000)) (PInt 5)
                (Exn ValueError [PInt 5])
                eq_refl eq_refl eq_refl eq_refl eq_refl eq_refl eq_refl
                eq_refl) as E.
  unfold r. rewrite E. repeat split.
Defined.
